(** * useWebSocket: a reconnecting WebSocket hook, and its Display consumer

    Shallow embedding of [src/hooks/useWebSocket.ts] and of
    [src/frontend/src/pages/Display.tsx].

    The hook is a React function component body: five [useState] cells, a
    memoised [connect] closure ([useCallback], whose dependency list holds
    [reconnectCount]), a memoised [sendMessage] closure (dependency
    [socket]) and one effect ([useEffect], dependency [connect]).  The
    embedding makes the parts of that machinery explicit that the code relies
    on:

    - the state cells are a record, the setters are record updates;
    - every [WebSocket] object the hook constructs lives in a heap (a list
      indexed by creation order) and carries the [reconnectCount] its event
      handlers closed over;
    - [setTimeout] callbacks wait in a list of pending timers, each with the
      [reconnectCount] of the [connect] closure that created it, which is also
      the closure it calls;
    - the updates made while one event is handled are applied together, then
      the component renders; when [reconnectCount] differs from the one the
      memoised [connect] was built with, [connect] is rebuilt, so the effect's
      cleanup runs and the effect runs again;
    - [url] and [config] are the same values at every render, as they are for
      [Display], so [reconnectCount] is the only dependency of [connect] that
      changes.

    The platform ([JSON.parse], [JSON.stringify], the [WebSocket] constructor)
    is a parameter of the development. *)

From Stdlib Require Import ZArith String.
From stdpp Require Import base option list strings pretty.

Open Scope string_scope.
Open Scope list_scope.
Set Warnings "-register-all".

(** ** JavaScript values *)

(** Values as [JSON.parse] produces them and as a caller may pass them for
    [any].  Numbers are restricted to integers. *)
Inductive value : Type :=
| VUndefined
| VNull
| VBool (b : bool)
| VNum (n : Z)
| VStr (s : string)
| VArr (items : list value)
| VObj (fields : list (string * value)).

(** Truthiness of a string: only the empty string is falsy. *)
Definition truthy_string (s : string) : bool :=
  match s with
  | EmptyString => false
  | String _ _ => true
  end.

(** [if (v)] *)
Definition truthy (v : value) : bool :=
  match v with
  | VUndefined | VNull => false
  | VBool b => b
  | VNum n => negb (n =? 0)%Z
  | VStr s => truthy_string s
  | VArr _ | VObj _ => true
  end.

(** [if (s)] for [s : string | undefined] and [s : string | null]. *)
Definition truthy_opt (s : option string) : bool :=
  match s with
  | Some s => truthy_string s
  | None => false
  end.

(** Property access [v.key]; anything but an object with that key gives
    [undefined]. *)
Fixpoint assoc (key : string) (fields : list (string * value)) : value :=
  match fields with
  | [] => VUndefined
  | (k, v) :: rest => if String.eqb k key then v else assoc key rest
  end.

Definition get_prop (v : value) (key : string) : value :=
  match v with
  | VObj fields => assoc key fields
  | _ => VUndefined
  end.

(** ** The platform *)

(** [protocols?: string | string[]] *)
Inductive Protocols : Type :=
| OneProtocol (p : string)
| ManyProtocols (ps : list string).

Record Platform : Type := {
  (** [JSON.parse]; [None] when it throws. *)
  JSON_parse : string -> option value;
  (** [JSON.stringify], as the string [ws.send] transmits. *)
  JSON_stringify : value -> string;
  (** [new WebSocket(url, protocols)]: [Some e] when the constructor throws,
      [e] being the text of the exception. *)
  WebSocket_throws : string -> option Protocols -> option string
}.

(** [WebSocket.readyState] *)
Inductive ReadyState : Type := CONNECTING | OPEN | CLOSING | CLOSED.

Global Instance ReadyState_eq_dec : EqDecision ReadyState.
Proof. solve_decision. Defined.

(** A socket object.  [closure_count] is the [reconnectCount] visible to its
    four handlers: the one captured by the [connect] closure that built it.
    [sent] lists the frames transmitted through it, oldest first. *)
Record WebSocket : Type := {
  readyState : ReadyState;
  closure_count : nat;
  sent : list string
}.

(** ** Configuration and state *)

Record WebSocketConfig : Type := {
  cfg_apiKey : option string;
  cfg_subscribeMessage : value;
  cfg_protocols : option Protocols;
  cfg_reconnect : option bool;
  cfg_reconnectAttempts : option Z;
  cfg_reconnectInterval : option Z
}.

(** [config = {}] *)
Definition empty_config : WebSocketConfig :=
  {| cfg_apiKey := None; cfg_subscribeMessage := VUndefined;
     cfg_protocols := None; cfg_reconnect := None;
     cfg_reconnectAttempts := None; cfg_reconnectInterval := None |}.

(** The five [useState] cells. *)
Record HookState : Type := {
  socket : option nat;
  data : value;
  isConnected : bool;
  error : option string;
  reconnectCount : nat
}.

(** A pending [setTimeout]: the delay it was given and the [reconnectCount]
    of the [connect] closure its callback calls. *)
Record Timer : Type := {
  delay : Z;
  timer_count : nat
}.

(** One mounted (or unmounted) use of the hook.
    - [heap]: every socket constructed so far, a socket's id is its index;
    - [timers]: the pending timeouts, in scheduling order;
    - [memo_count]: the [reconnectCount] the memoised [connect] was built with;
    - [cleanup_socket]: the [socket] the pending effect cleanup closed over,
      that of the render in which the effect last ran;
    - [connect_calls]: how many times [connect] has been called. *)
Record Instance : Type := {
  hook : HookState;
  heap : list WebSocket;
  timers : list Timer;
  memo_count : nat;
  cleanup_socket : option nat;
  mounted : bool;
  connect_calls : nat
}.

Definition with_hook (f : HookState -> HookState) (w : Instance) : Instance :=
  {| hook := f (hook w); heap := heap w; timers := timers w;
     memo_count := memo_count w; cleanup_socket := cleanup_socket w;
     mounted := mounted w; connect_calls := connect_calls w |}.

Definition with_heap (f : list WebSocket -> list WebSocket) (w : Instance)
  : Instance :=
  {| hook := hook w; heap := f (heap w); timers := timers w;
     memo_count := memo_count w; cleanup_socket := cleanup_socket w;
     mounted := mounted w; connect_calls := connect_calls w |}.

Definition with_timers (f : list Timer -> list Timer) (w : Instance)
  : Instance :=
  {| hook := hook w; heap := heap w; timers := f (timers w);
     memo_count := memo_count w; cleanup_socket := cleanup_socket w;
     mounted := mounted w; connect_calls := connect_calls w |}.

(** *** The state setters *)

Definition setSocket (s : option nat) : Instance -> Instance :=
  with_hook (fun h =>
    {| socket := s; data := data h; isConnected := isConnected h;
       error := error h; reconnectCount := reconnectCount h |}).

Definition setData (v : value) : Instance -> Instance :=
  with_hook (fun h =>
    {| socket := socket h; data := v; isConnected := isConnected h;
       error := error h; reconnectCount := reconnectCount h |}).

Definition setIsConnected (b : bool) : Instance -> Instance :=
  with_hook (fun h =>
    {| socket := socket h; data := data h; isConnected := b;
       error := error h; reconnectCount := reconnectCount h |}).

Definition setError (e : option string) : Instance -> Instance :=
  with_hook (fun h =>
    {| socket := socket h; data := data h; isConnected := isConnected h;
       error := e; reconnectCount := reconnectCount h |}).

(** [setReconnectCount(f)], the functional form; [setReconnectCount(0)] is
    [setReconnectCount (fun _ => 0)]. *)
Definition setReconnectCount (f : nat -> nat) : Instance -> Instance :=
  with_hook (fun h =>
    {| socket := socket h; data := data h; isConnected := isConnected h;
       error := error h; reconnectCount := f (reconnectCount h) |}).

(** *** Socket methods *)

(** [ws.send(frame)].  Only an [OPEN] socket transmits.  (A [CONNECTING] one
    throws and a [CLOSING] or [CLOSED] one discards the frame; the hook calls
    [send] as the last statements of [onopen] and behind the [readyState]
    test of [sendMessage], where nothing is left to skip.) *)
Definition ws_send (ws : nat) (frame : string) : Instance -> Instance :=
  with_heap (alter (fun s =>
    match readyState s with
    | OPEN => {| readyState := OPEN; closure_count := closure_count s;
                 sent := sent s ++ [frame] |}
    | _ => s
    end) ws).

(** [ws.close()]: starts the closing handshake unless already closing or
    closed. *)
Definition ws_close (ws : nat) : Instance -> Instance :=
  with_heap (alter (fun s =>
    match readyState s with
    | CONNECTING | OPEN =>
        {| readyState := CLOSING; closure_count := closure_count s;
           sent := sent s |}
    | _ => s
    end) ws).

(** The transport moves a socket to another [readyState]. *)
Definition set_readyState (ws : nat) (r : ReadyState) : Instance -> Instance :=
  with_heap (alter (fun s =>
    {| readyState := r; closure_count := closure_count s; sent := sent s |})
    ws).

Definition readyState_of (w : Instance) (ws : nat) : option ReadyState :=
  readyState <$> heap w !! ws.

Definition sent_of (w : Instance) (ws : nat) : list string :=
  from_option sent [] (heap w !! ws).

(** ** A sample platform, to evaluate the hook on concrete inputs *)

Definition dquote : string := String (Ascii.ascii_of_nat 34) EmptyString.

Definition quoted (s : string) : string :=
  String.append dquote (String.append s dquote).

(** [JSON.stringify] on values whose strings need no escaping; [ws.send]
    turns the [undefined] that [JSON.stringify(undefined)] returns into the
    text of that word. *)
Fixpoint sample_stringify (v : value) : string :=
  match v with
  | VUndefined => "undefined"
  | VNull => "null"
  | VBool true => "true"
  | VBool false => "false"
  | VNum n => pretty n
  | VStr s => quoted s
  | VArr items =>
      String.append "["
        (String.append (String.concat "," (map sample_stringify items)) "]")
  | VObj fields =>
      String.append "{"
        (String.append
           (String.concat ","
              (map (fun kv => String.append (quoted (fst kv))
                                (String.append ":" (sample_stringify (snd kv))))
                 fields))
           "}")
  end.

(** [JSON.parse] on the three literal names; every other text is refused
    here, as is the text of an unterminated object by the real one. *)
Definition sample_parse (raw : string) : option value :=
  if String.eqb raw "null" then Some VNull
  else if String.eqb raw "true" then Some (VBool true)
  else if String.eqb raw "false" then Some (VBool false)
  else None.

(** The constructor refuses the empty URL and accepts every other. *)
Definition sample_throws (url : string) (_ : option Protocols)
  : option string :=
  if truthy_string url then None
  else Some "SyntaxError: The URL '' is invalid.".

Definition sample_platform : Platform :=
  {| JSON_parse := sample_parse;
     JSON_stringify := sample_stringify;
     WebSocket_throws := sample_throws |}.

(** The page's feed: [useWebSocket("ws://localhost:8000/status")]. *)
Definition status_url : string := "ws://localhost:8000/status".

(** *** Sample configurations *)

(** [{ reconnect: true, reconnectAttempts: 1, reconnectInterval: 1000 }] *)
Definition one_retry_config : WebSocketConfig :=
  {| cfg_apiKey := None; cfg_subscribeMessage := VUndefined;
     cfg_protocols := None; cfg_reconnect := Some true;
     cfg_reconnectAttempts := Some 1%Z;
     cfg_reconnectInterval := Some 1000%Z |}.

(** [{ reconnect: false }] *)
Definition no_retry_config : WebSocketConfig :=
  {| cfg_apiKey := None; cfg_subscribeMessage := VUndefined;
     cfg_protocols := None; cfg_reconnect := Some false;
     cfg_reconnectAttempts := None; cfg_reconnectInterval := None |}.

(** [{ apiKey: "" }] *)
Definition empty_key_config : WebSocketConfig :=
  {| cfg_apiKey := Some ""; cfg_subscribeMessage := VUndefined;
     cfg_protocols := None; cfg_reconnect := None;
     cfg_reconnectAttempts := None; cfg_reconnectInterval := None |}.

(** [{ subscribeMessage: 0 }] *)
Definition zero_subscribe_config : WebSocketConfig :=
  {| cfg_apiKey := None; cfg_subscribeMessage := VNum 0;
     cfg_protocols := None; cfg_reconnect := None;
     cfg_reconnectAttempts := None; cfg_reconnectInterval := None |}.

(** [{ apiKey: "k1", subscribeMessage: { x: 1 } }] *)
Definition auth_subscribe_config : WebSocketConfig :=
  {| cfg_apiKey := Some "k1"; cfg_subscribeMessage := VObj [("x", VNum 1)];
     cfg_protocols := None; cfg_reconnect := None;
     cfg_reconnectAttempts := None; cfg_reconnectInterval := None |}.

(** ** The preset hooks *)

(** Each preset calls [useWebSocket] with a URL and a configuration built
    from its argument; a preset is given here as that pair.  An argument
    left out ([None]) takes the default of the parameter list.  The three
    exchange presets build their subscribe message anew at every render, so
    what is proved of them below is about the handlers of a socket, not about
    runs, which take the configuration to be the same value at every
    render. *)

(** [useBinanceWebSocket(symbol = "btcusdt")] *)
Definition useBinanceWebSocket (symbol : option string)
  : string * WebSocketConfig :=
  let symbol := default "btcusdt" symbol in
  (String.append "wss://stream.binance.com:9443/ws/"
     (String.append symbol "@trade"),
   {| cfg_apiKey := None;
      cfg_subscribeMessage :=
        VObj [("method", VStr "SUBSCRIBE");
              ("params", VArr [VStr (String.append symbol "@trade")]);
              ("id", VNum 1)];
      cfg_protocols := None; cfg_reconnect := None;
      cfg_reconnectAttempts := None; cfg_reconnectInterval := None |}).

(** [useKrakenWebSocket(pairs = ["XBT/USD"])] *)
Definition useKrakenWebSocket (pairs : option (list string))
  : string * WebSocketConfig :=
  let pairs := default ["XBT/USD"] pairs in
  ("wss://ws.kraken.com",
   {| cfg_apiKey := None;
      cfg_subscribeMessage :=
        VObj [("event", VStr "subscribe");
              ("pair", VArr (map VStr pairs));
              ("subscription", VObj [("name", VStr "ticker")])];
      cfg_protocols := None; cfg_reconnect := None;
      cfg_reconnectAttempts := None; cfg_reconnectInterval := None |}).

(** [useCoinbaseWebSocket(products = ["BTC-USD"])] *)
Definition useCoinbaseWebSocket (products : option (list string))
  : string * WebSocketConfig :=
  let products := default ["BTC-USD"] products in
  ("wss://ws-feed.pro.coinbase.com",
   {| cfg_apiKey := None;
      cfg_subscribeMessage :=
        VObj [("type", VStr "subscribe");
              ("product_ids", VArr (map VStr products));
              ("channels", VArr [VStr "ticker"])];
      cfg_protocols := None; cfg_reconnect := None;
      cfg_reconnectAttempts := None; cfg_reconnectInterval := None |}).

(** [useAuthenticatedWebSocket(url, apiKey)] *)
Definition useAuthenticatedWebSocket (url apiKey : string)
  : string * WebSocketConfig :=
  (url,
   {| cfg_apiKey := Some apiKey; cfg_subscribeMessage := VUndefined;
      cfg_protocols := None; cfg_reconnect := Some true;
      cfg_reconnectAttempts := Some 3%Z;
      cfg_reconnectInterval := Some 3000%Z |}).

(** ** What the hook returns, and the Display page *)

(** [{ data, isConnected, error, sendMessage }]; [sendMessage] is the
    function of that name below. *)
Record WebSocketHookReturn : Type := {
  ret_data : value;
  ret_isConnected : bool;
  ret_error : option string
}.

Definition exposed (w : Instance) : WebSocketHookReturn :=
  {| ret_data := data (hook w);
     ret_isConnected := isConnected (hook w);
     ret_error := error (hook w) |}.

(** [socket?.readyState], for the stored socket. *)
Definition stored_readyState (w : Instance) : option ReadyState :=
  match socket (hook w) with
  | Some ws => readyState_of w ws
  | None => None
  end.

(** The regions of the page.  The cards are kept as the object whose entries
    they are made from, [data.data]; their formatting is not modelled, nor is
    the [TypeError] the page raises while making cards from a truthy [data]
    that lacks the shape of [MarketData].  What is proved of the page below
    is about the alert and about the page with a falsy [data]. *)
Record Page : Type := {
  badge_live : bool;
  waiting : bool;
  grid_source : option value;
  last_updated : option value
}.

Inductive Element : Type :=
| Alert (description : string)
| Container (page : Page).

Definition Display_page (r : WebSocketHookReturn) : Element :=
  Container
    {| badge_live := ret_isConnected r;
       waiting := negb (truthy (ret_data r)) && ret_isConnected r;
       grid_source :=
         if truthy (ret_data r) then Some (get_prop (ret_data r) "data")
         else None;
       last_updated :=
         if truthy (ret_data r) then Some (get_prop (ret_data r) "timestamp")
         else None |}.

(** [Display], given what the hook returned to it. *)
Definition Display (r : WebSocketHookReturn) : Element :=
  match ret_error r with
  | Some e => if truthy_string e then Alert e else Display_page r
  | None => Display_page r
  end.

Definition renders_badge (el : Element) : bool :=
  match el with
  | Alert _ => false
  | Container _ => true
  end.

Definition renders_grid (el : Element) : bool :=
  match el with
  | Alert _ => false
  | Container _ => true
  end.

Definition renders_last_updated (el : Element) : bool :=
  match el with
  | Alert _ => false
  | Container page => bool_decide (is_Some (last_updated page))
  end.

(** ** The hook *)

Section useWebSocket.

Context (P : Platform) (url : string) (config : WebSocketConfig).

(** The destructuring of [config], with its defaults. *)
Definition apiKey : option string := cfg_apiKey config.
Definition subscribeMessage : value := cfg_subscribeMessage config.
Definition protocols : option Protocols := cfg_protocols config.
Definition reconnect : bool := default true (cfg_reconnect config).
Definition reconnectAttempts : Z := default 5%Z (cfg_reconnectAttempts config).
Definition reconnectInterval : Z :=
  default 5000%Z (cfg_reconnectInterval config).

(** [{ type: "auth", apiKey }] *)
Definition auth_envelope (key : string) : value :=
  VObj [("type", VStr "auth"); ("apiKey", VStr key)].

(** [ws.onopen], for the socket [ws] it is installed on. *)
Definition onopen (ws : nat) (w : Instance) : Instance :=
  let w := setIsConnected true w in
  let w := setError None w in
  let w := setReconnectCount (fun _ => 0) w in
  let w :=
    match apiKey with
    | Some key =>
        if truthy_string key
        then ws_send ws (JSON_stringify P (auth_envelope key)) w
        else w
    | None => w
    end in
  if truthy subscribeMessage
  then ws_send ws (JSON_stringify P subscribeMessage) w
  else w.

(** [ws.onmessage], [raw] being [event.data]. *)
Definition onmessage (raw : string) (w : Instance) : Instance :=
  match JSON_parse P raw with
  | Some parsed => setData parsed w
  | None => setError (Some "Failed to parse message data") w
  end.

(** [ws.onerror] *)
Definition onerror (w : Instance) : Instance :=
  let w := setError (Some "WebSocket error occurred") w in
  setIsConnected false w.

(** [setTimeout(callback, ms)], the callback being the one of [onclose]
    inside the [connect] closure built with [reconnectCount = k]. *)
Definition setTimeout (k : nat) (ms : Z) : Instance -> Instance :=
  with_timers (fun ts => ts ++ [{| delay := ms; timer_count := k |}]).

(** [ws.onclose], inside the [connect] closure built with
    [reconnectCount = k]. *)
Definition onclose (k : nat) (w : Instance) : Instance :=
  let w := setIsConnected false w in
  let w := setError (Some "WebSocket connection closed") w in
  if reconnect && (Z.of_nat k <? reconnectAttempts)%Z
  then setTimeout k (reconnectInterval * 2 ^ Z.of_nat k)%Z w
  else w.

(** [connect], the closure built with [reconnectCount = k]. *)
Definition connect (k : nat) (w : Instance) : Instance :=
  let w :=
    {| hook := hook w; heap := heap w; timers := timers w;
       memo_count := memo_count w; cleanup_socket := cleanup_socket w;
       mounted := mounted w; connect_calls := S (connect_calls w) |} in
  match WebSocket_throws P url protocols with
  | None =>
      let ws := length (heap w) in
      let w :=
        with_heap (fun h => h ++ [{| readyState := CONNECTING;
                                     closure_count := k; sent := [] |}]) w in
      setSocket (Some ws) w
  | Some exn =>
      setError
        (Some (String.append "Failed to create WebSocket connection: " exn))
        w
  end.

(** The timeout callback of [onclose] inside the [connect] closure built
    with [reconnectCount = k]; the [connect] it names is that same
    closure. *)
Definition timeout_callback (k : nat) (w : Instance) : Instance :=
  let w := setReconnectCount (fun prev => prev + 1) w in
  connect k w.

(** [sendMessage], rebuilt whenever [socket] changes, so that it tests the
    stored socket. *)
Definition sendMessage (message : value) (w : Instance) : Instance :=
  match socket (hook w) with
  | Some ws =>
      match readyState_of w ws with
      | Some OPEN => ws_send ws (JSON_stringify P message) w
      | _ => setError (Some "WebSocket is not connected") w
      end
  | None => setError (Some "WebSocket is not connected") w
  end.

(** The effect's cleanup: [socket?.close()] on the socket it closed over. *)
Definition cleanup (w : Instance) : Instance :=
  match cleanup_socket w with
  | Some ws => ws_close ws w
  | None => w
  end.

(** The state of the first render, before its effect has run. *)
Definition first_render : Instance :=
  {| hook := {| socket := None; data := VNull; isConnected := false;
                error := None; reconnectCount := 0 |};
     heap := []; timers := []; memo_count := 0; cleanup_socket := None;
     mounted := true; connect_calls := 0 |}.

(** Mounting: the first render and its effect. *)
Definition mount : Instance := connect 0 first_render.

(** A render of a mounted component.  [connect] is rebuilt when
    [reconnectCount] is not the one it was built with; then the previous
    cleanup runs, the effect runs the new [connect], and the new cleanup
    closes over the [socket] of this render. *)
Definition render (w : Instance) : Instance :=
  if mounted w then
    if decide (reconnectCount (hook w) = memo_count w) then w
    else
      let k := reconnectCount (hook w) in
      let seen := socket (hook w) in
      let w := connect k (cleanup w) in
      {| hook := hook w; heap := heap w; timers := timers w;
         memo_count := k; cleanup_socket := seen;
         mounted := true; connect_calls := connect_calls w |}
  else w.

(** Teardown: the component unmounts and the effect's cleanup runs.  No
    render follows an unmount; the handlers and timers of the instance's
    sockets still run, and what they write to the state cells is read by
    nobody. *)
Definition unmount (w : Instance) : Instance :=
  let w := cleanup w in
  {| hook := hook w; heap := heap w; timers := timers w;
     memo_count := memo_count w; cleanup_socket := cleanup_socket w;
     mounted := false; connect_calls := connect_calls w |}.

(** *** Events *)

(** What can happen to an instance: the transport fires an event on one of
    its sockets, a pending timer fires, the consumer sends, or the consumer
    unmounts. *)
Inductive Event : Type :=
| EvOpen (ws : nat)
| EvMessage (ws : nat) (raw : string)
| EvError (ws : nat)
| EvClose (ws : nat)
| EvTimer (i : nat)
| EvSend (message : value)
| EvUnmount.

(** The handlers an event runs, [None] when the event cannot happen.  A
    connection that fails fires [error] and then [close] in one task, with
    [readyState] already [CLOSED]. *)
Definition dispatch (e : Event) (w : Instance) : option Instance :=
  match e with
  | EvOpen ws =>
      match heap w !! ws with
      | Some s =>
          match readyState s with
          | CONNECTING => Some (onopen ws (set_readyState ws OPEN w))
          | _ => None
          end
      | None => None
      end
  | EvMessage ws raw =>
      match heap w !! ws with
      | Some s =>
          match readyState s with
          | OPEN => Some (onmessage raw w)
          | _ => None
          end
      | None => None
      end
  | EvError ws =>
      match heap w !! ws with
      | Some s =>
          match readyState s with
          | CLOSED => None
          | _ => Some (onclose (closure_count s)
                         (onerror (set_readyState ws CLOSED w)))
          end
      | None => None
      end
  | EvClose ws =>
      match heap w !! ws with
      | Some s =>
          match readyState s with
          | CLOSED => None
          | _ => Some (onclose (closure_count s)
                         (set_readyState ws CLOSED w))
          end
      | None => None
      end
  | EvTimer i =>
      match timers w !! i with
      | Some t =>
          Some (timeout_callback (timer_count t)
                  (with_timers (delete i) w))
      | None => None
      end
  | EvSend message =>
      if mounted w then Some (sendMessage message w) else None
  | EvUnmount =>
      if mounted w then Some (unmount w) else None
  end.

(** One event: its handlers, then the render they cause. *)
Definition step (e : Event) (w : Instance) : option Instance :=
  render <$> dispatch e w.

Fixpoint run (es : list Event) (w : Instance) : option Instance :=
  match es with
  | [] => Some w
  | e :: es' =>
      match step e w with
      | Some w' => run es' w'
      | None => None
      end
  end.

(** The instances a mounted hook can reach. *)
Definition reachable (w : Instance) : Prop :=
  exists es, run es mount = Some w.

(** *** Invariants of runs *)

(** A set [error] is a non-empty string. *)
Definition error_truthy (w : Instance) : Prop :=
  forall e, error (hook w) = Some e -> truthy_string e = true.

(** Some socket whose handlers hold [reconnectCount = 0] has not fired its
    close event yet. *)
Definition stale_socket_live (w : Instance) : Prop :=
  exists ws s,
    heap w !! ws = Some s /\ closure_count s = 0 /\ readyState s <> CLOSED.

(** How many timers fire in a sequence of events. *)
Definition is_timer (e : Event) : bool :=
  match e with
  | EvTimer _ => true
  | _ => false
  end.

Definition timer_fires (es : list Event) : nat :=
  length (List.filter is_timer es).

(** The events of a run of failures: closes and timers only. *)
Definition failure_event (e : Event) : bool :=
  match e with
  | EvClose _ | EvTimer _ => true
  | _ => false
  end.

(** The frames [onopen] hands to [ws.send]: the auth envelope, then the
    subscribe message, each if its test passes. *)
Definition control_frames : list string :=
  (if truthy_opt apiKey
   then [JSON_stringify P (auth_envelope (default "" apiKey))]
   else [])
  ++ (if truthy subscribeMessage
      then [JSON_stringify P subscribeMessage]
      else []).

(** What a socket in state [r] can have transmitted. *)
Definition frames_ok (r : ReadyState) (frames : list string) : Prop :=
  match r with
  | CONNECTING => frames = []
  | OPEN => control_frames `prefix_of` frames
  | CLOSING | CLOSED => frames = [] \/ control_frames `prefix_of` frames
  end.

(** The id of the socket built last. *)
Definition latest_socket (w : Instance) : option nat :=
  match length (heap w) with
  | 0 => None
  | S n => Some n
  end.

(** The stored socket is the one built last, the cleanup closes over an
    older one, and a constructor that throws leaves no socket and no timer. *)
Definition sockets_in_order (w : Instance) : Prop :=
  socket (hook w) = latest_socket w
  /\ (forall c, cleanup_socket w = Some c -> S c < length (heap w))
  /\ (is_Some (WebSocket_throws P url protocols) ->
      heap w = [] /\ timers w = []).


(** The instance has seen no open, close, error or timer yet. *)
Definition first_attempt (w : Instance) : Prop :=
  data (hook w) = VNull
  /\ timers w = []
  /\ reconnectCount (hook w) = 0
  /\ memo_count w = 0
  /\ cleanup_socket w = None
  /\ connect_calls w = 1
  /\ forall ws s, heap w !! ws = Some s -> readyState s = CONNECTING.

(** The parts of an instance that only [connect], a render and the unmount
    change. *)
Definition same_shape (w w' : Instance) : Prop :=
  length (heap w') = length (heap w)
  /\ socket (hook w') = socket (hook w)
  /\ cleanup_socket w' = cleanup_socket w
  /\ mounted w' = mounted w
  /\ memo_count w' = memo_count w.

(** On every socket the frames transmitted fit its state. *)
Definition frames_in_order (w : Instance) : Prop :=
  forall ws s, heap w !! ws = Some s -> frames_ok (readyState s) (sent s).

(** ** Properties of the handlers *)

(** Heap updates at a socket, as seen from a lookup. *)
Lemma sent_of_ws_send (w : Instance) (ws : nat) (frame : string) :
  readyState_of w ws = Some OPEN ->
  sent_of (ws_send ws frame w) ws = sent_of w ws ++ [frame].
Proof.
  unfold readyState_of, sent_of, ws_send, with_heap; simpl.
  rewrite list_lookup_alter_eq.
  destruct (heap w !! ws) as [s|]; simpl; [|discriminate].
  intros [= ->]; reflexivity.
Qed.

Lemma readyState_of_ws_send (w : Instance) (ws ws' : nat) (frame : string) :
  readyState_of (ws_send ws frame w) ws' = readyState_of w ws'.
Proof.
  unfold readyState_of, ws_send, with_heap; simpl.
  destruct (decide (ws = ws')) as [->|Hne].
  - rewrite list_lookup_alter_eq.
    destruct (heap w !! ws') as [s|]; simpl; [|reflexivity].
    destruct (readyState s) eqn:E; simpl; congruence.
  - rewrite list_lookup_alter_ne by assumption; reflexivity.
Qed.

Lemma sent_of_ws_send_other (w : Instance) (ws ws' : nat) (frame : string) :
  ws <> ws' -> sent_of (ws_send ws frame w) ws' = sent_of w ws'.
Proof.
  intros Hne; unfold sent_of, ws_send, with_heap; simpl.
  rewrite list_lookup_alter_ne by assumption; reflexivity.
Qed.

Lemma readyState_of_set (w : Instance) (ws : nat) (r : ReadyState) :
  is_Some (heap w !! ws) ->
  readyState_of (set_readyState ws r w) ws = Some r.
Proof.
  intros [s Hs]; unfold readyState_of, set_readyState, with_heap; simpl.
  rewrite list_lookup_alter_eq, Hs; reflexivity.
Qed.

Lemma sent_of_set (w : Instance) (ws ws' : nat) (r : ReadyState) :
  sent_of (set_readyState ws r w) ws' = sent_of w ws'.
Proof.
  unfold sent_of, set_readyState, with_heap; simpl.
  destruct (decide (ws = ws')) as [->|Hne].
  - rewrite list_lookup_alter_eq.
    destruct (heap w !! ws'); reflexivity.
  - rewrite list_lookup_alter_ne by assumption; reflexivity.
Qed.

Lemma onopen_hook (ws : nat) (w : Instance) :
  hook (onopen ws w)
  = {| socket := socket (hook w); data := data (hook w);
       isConnected := true; error := None; reconnectCount := 0 |}.
Proof.
  unfold onopen.
  destruct apiKey as [key|]; [destruct (truthy_string key)|];
    destruct (truthy subscribeMessage); reflexivity.
Qed.

Lemma onopen_timers (ws : nat) (w : Instance) :
  timers (onopen ws w) = timers w.
Proof.
  unfold onopen.
  destruct apiKey as [key|]; [destruct (truthy_string key)|];
    destruct (truthy subscribeMessage); reflexivity.
Qed.

Lemma onopen_readyState (ws ws' : nat) (w : Instance) :
  readyState_of (onopen ws w) ws' = readyState_of w ws'.
Proof.
  unfold onopen.
  destruct apiKey as [key|]; [destruct (truthy_string key)|];
    destruct (truthy subscribeMessage);
    rewrite ?readyState_of_ws_send; reflexivity.
Qed.

Lemma onopen_sent (ws : nat) (w : Instance) :
  readyState_of w ws = Some OPEN ->
  sent_of (onopen ws w) ws
  = sent_of w ws
    ++ (if truthy_opt apiKey
        then [JSON_stringify P (auth_envelope (default "" apiKey))]
        else [])
    ++ (if truthy subscribeMessage
        then [JSON_stringify P subscribeMessage]
        else []).
Proof.
  intros Hopen; unfold onopen, truthy_opt.
  destruct apiKey as [key|]; [destruct (truthy_string key)|];
    destruct (truthy subscribeMessage); simpl;
    rewrite ?sent_of_ws_send, ?app_nil_r, <- ?app_assoc;
    try reflexivity;
    rewrite ?readyState_of_ws_send; exact Hopen.
Qed.

Lemma onopen_sent_other (ws ws' : nat) (w : Instance) :
  ws <> ws' -> sent_of (onopen ws w) ws' = sent_of w ws'.
Proof.
  intros Hne; unfold onopen.
  destruct apiKey as [key|]; [destruct (truthy_string key)|];
    destruct (truthy subscribeMessage);
    rewrite ?sent_of_ws_send_other by assumption; reflexivity.
Qed.

(** C3 (amended).  When the transport opens a connecting socket, [onopen]
    runs on the now open socket: [isConnected] becomes true, [error] is
    cleared and [reconnectCount] becomes 0 whatever it was; [data], the
    stored socket and the pending timers stay.  The socket then transmits
    the serialised auth envelope if [apiKey] is a non-empty string, and
    after it the serialised [subscribeMessage] if that value is truthy;
    nothing else is transmitted, on this socket or another. *)
Theorem open_event_effect (w : Instance) (ws : nat) (s : WebSocket) :
  heap w !! ws = Some s ->
  readyState s = CONNECTING ->
  exists w',
    dispatch (EvOpen ws) w = Some w'
    /\ readyState_of w' ws = Some OPEN
    /\ isConnected (hook w') = true
    /\ error (hook w') = None
    /\ reconnectCount (hook w') = 0
    /\ data (hook w') = data (hook w)
    /\ socket (hook w') = socket (hook w)
    /\ timers w' = timers w
    /\ sent_of w' ws
       = sent s
         ++ (if truthy_opt apiKey
             then [JSON_stringify P (auth_envelope (default "" apiKey))]
             else [])
         ++ (if truthy subscribeMessage
             then [JSON_stringify P subscribeMessage]
             else [])
    /\ forall ws', ws' <> ws -> sent_of w' ws' = sent_of w ws'.
Proof.
  intros Hs Hr.
  exists (onopen ws (set_readyState ws OPEN w)).
  assert (Hopen : readyState_of (set_readyState ws OPEN w) ws = Some OPEN)
    by (apply readyState_of_set; eauto).
  repeat split.
  - simpl; rewrite Hs, Hr; reflexivity.
  - rewrite onopen_readyState; exact Hopen.
  - rewrite onopen_hook; reflexivity.
  - rewrite onopen_hook; reflexivity.
  - rewrite onopen_hook; reflexivity.
  - rewrite onopen_hook; reflexivity.
  - rewrite onopen_hook; reflexivity.
  - rewrite onopen_timers; reflexivity.
  - rewrite onopen_sent by exact Hopen.
    rewrite sent_of_set; unfold sent_of; rewrite Hs; reflexivity.
  - intros ws' Hne.
    rewrite onopen_sent_other by congruence.
    apply sent_of_set.
Qed.

Lemma sendMessage_not_open (message : value) (w : Instance) :
  stored_readyState w <> Some OPEN ->
  sendMessage message w = setError (Some "WebSocket is not connected") w.
Proof.
  unfold stored_readyState, sendMessage.
  destruct (socket (hook w)) as [ws|]; [|reflexivity].
  destruct (readyState_of w ws) as [[]|]; congruence.
Qed.

Lemma sendMessage_open (message : value) (w : Instance) (ws : nat) :
  socket (hook w) = Some ws ->
  readyState_of w ws = Some OPEN ->
  sendMessage message w = ws_send ws (JSON_stringify P message) w.
Proof.
  unfold sendMessage; intros -> ->; reflexivity.
Qed.

(** The test of [sendMessage], on the stored socket: while it is not open
    (or no socket is stored) nothing is transmitted and [error] becomes the
    not-connected message; while it is open the serialised message is
    transmitted on it and [error], like the rest of the state cells, is left
    as it was. *)
Lemma sendMessage_by_connection_state (message : value) (w : Instance) :
  (stored_readyState w <> Some OPEN ->
     error (hook (sendMessage message w)) = Some "WebSocket is not connected"
     /\ heap (sendMessage message w) = heap w)
  /\ (stored_readyState w = Some OPEN ->
        hook (sendMessage message w) = hook w
        /\ exists ws,
             socket (hook w) = Some ws
             /\ sent_of (sendMessage message w) ws
                = sent_of w ws ++ [JSON_stringify P message]
             /\ forall ws', ws' <> ws ->
                  sent_of (sendMessage message w) ws' = sent_of w ws').
Proof.
  split.
  - intros Hno; rewrite sendMessage_not_open by assumption.
    split; reflexivity.
  - unfold stored_readyState.
    destruct (socket (hook w)) as [ws|] eqn:Hsock; [|discriminate].
    intros Hopen.
    rewrite (sendMessage_open message w ws Hsock Hopen).
    split; [reflexivity|].
    exists ws; split; [reflexivity|]; split.
    + apply sent_of_ws_send; assumption.
    + intros ws' Hne; apply sent_of_ws_send_other; congruence.
Qed.

(** C9.  The test of [sendMessage] is on the stored socket, not on
    [isConnected]: with no stored socket, or one that is not open, it
    transmits nothing and sets the not-connected error, whatever
    [isConnected] reads, and it leaves [isConnected] as it was. *)
Theorem sendMessage_ignores_isConnected (message : value) (w : Instance) :
  stored_readyState w <> Some OPEN ->
  heap (sendMessage message w) = heap w
  /\ error (hook (sendMessage message w)) = Some "WebSocket is not connected"
  /\ isConnected (hook (sendMessage message w)) = isConnected (hook w).
Proof.
  intros Hno; rewrite sendMessage_not_open by assumption.
  repeat split.
Qed.

(** C8.  When the [WebSocket] constructor throws, [connect] only sets
    [error] to the construction-failure message built from the exception:
    [data], [isConnected], the stored socket and [reconnectCount] stay, no
    socket is added or changed and no timer is scheduled. *)
Theorem connect_construction_failure (k : nat) (w : Instance) (exn : string) :
  WebSocket_throws P url protocols = Some exn ->
  error (hook (connect k w))
  = Some (String.append "Failed to create WebSocket connection: " exn)
  /\ data (hook (connect k w)) = data (hook w)
  /\ isConnected (hook (connect k w)) = isConnected (hook w)
  /\ socket (hook (connect k w)) = socket (hook w)
  /\ reconnectCount (hook (connect k w)) = reconnectCount (hook w)
  /\ heap (connect k w) = heap w
  /\ timers (connect k w) = timers w.
Proof.
  intros Hthrow; unfold connect; rewrite Hthrow.
  repeat split.
Qed.

Lemma onclose_error (k : nat) (w : Instance) :
  error (hook (onclose k w)) = Some "WebSocket connection closed".
Proof.
  unfold onclose.
  destruct (reconnect && (Z.of_nat k <? reconnectAttempts)%Z); reflexivity.
Qed.

Lemma onclose_hook (k : nat) (w : Instance) :
  hook (onclose k w)
  = {| socket := socket (hook w); data := data (hook w);
       isConnected := false;
       error := Some "WebSocket connection closed";
       reconnectCount := reconnectCount (hook w) |}.
Proof.
  unfold onclose.
  destruct (reconnect && (Z.of_nat k <? reconnectAttempts)%Z); reflexivity.
Qed.

(** The decision and the delay of [onclose], on the [reconnectCount] its
    closure holds. *)
Lemma onclose_timers (k : nat) (w : Instance) :
  timers (onclose k w)
  = if reconnect && (Z.of_nat k <? reconnectAttempts)%Z
    then timers w
         ++ [{| delay := (reconnectInterval * 2 ^ Z.of_nat k)%Z;
                timer_count := k |}]
    else timers w.
Proof.
  unfold onclose.
  destruct (reconnect && (Z.of_nat k <? reconnectAttempts)%Z); reflexivity.
Qed.

(** C6 (amended).  A close whose handler holds a [reconnectCount] that has
    reached [reconnectAttempts], or that finds [reconnect] off, schedules
    nothing and leaves [isConnected] false; the [error] it sets is the
    closed-connection message, the one every close sets, with or without a
    retry. *)
Theorem onclose_exhausted (k : nat) (w : Instance) :
  reconnect = false \/ (reconnectAttempts <= Z.of_nat k)%Z ->
  timers (onclose k w) = timers w
  /\ isConnected (hook (onclose k w)) = false
  /\ error (hook (onclose k w)) = Some "WebSocket connection closed"
  /\ forall (k' : nat) (w' : Instance),
       error (hook (onclose k' w')) = error (hook (onclose k w)).
Proof.
  intros Hstop.
  assert (Hdec : reconnect && (Z.of_nat k <? reconnectAttempts)%Z = false).
  { destruct Hstop as [-> | Hle]; [reflexivity|].
    apply andb_false_iff; right; apply Z.ltb_ge; exact Hle. }
  split; [rewrite onclose_timers, Hdec; reflexivity|].
  split; [rewrite onclose_hook; reflexivity|].
  split; [apply onclose_error|].
  intros k' w'; rewrite !onclose_error; reflexivity.
Qed.

(** ** Properties of runs *)

Lemma cleanup_hook (w : Instance) : hook (cleanup w) = hook w.
Proof. unfold cleanup; destruct (cleanup_socket w); reflexivity. Qed.

Lemma cleanup_timers (w : Instance) : timers (cleanup w) = timers w.
Proof. unfold cleanup; destruct (cleanup_socket w); reflexivity. Qed.

Lemma cleanup_connect_calls (w : Instance) :
  connect_calls (cleanup w) = connect_calls w.
Proof. unfold cleanup; destruct (cleanup_socket w); reflexivity. Qed.

Lemma cleanup_length (w : Instance) :
  length (heap (cleanup w)) = length (heap w).
Proof.
  unfold cleanup; destruct (cleanup_socket w); [|reflexivity].
  unfold ws_close, with_heap; simpl; apply length_alter.
Qed.

Lemma connect_isConnected (k : nat) (w : Instance) :
  isConnected (hook (connect k w)) = isConnected (hook w).
Proof.
  unfold connect; destruct (WebSocket_throws P url protocols); reflexivity.
Qed.

Lemma connect_reconnectCount (k : nat) (w : Instance) :
  reconnectCount (hook (connect k w)) = reconnectCount (hook w).
Proof.
  unfold connect; destruct (WebSocket_throws P url protocols); reflexivity.
Qed.

Lemma connect_timers (k : nat) (w : Instance) :
  timers (connect k w) = timers w.
Proof.
  unfold connect; destruct (WebSocket_throws P url protocols); reflexivity.
Qed.

Lemma connect_mounted (k : nat) (w : Instance) :
  mounted (connect k w) = mounted w.
Proof.
  unfold connect; destruct (WebSocket_throws P url protocols); reflexivity.
Qed.

Lemma connect_connect_calls (k : nat) (w : Instance) :
  connect_calls (connect k w) = S (connect_calls w).
Proof.
  unfold connect; destruct (WebSocket_throws P url protocols); reflexivity.
Qed.

Lemma connect_length (k : nat) (w : Instance) :
  WebSocket_throws P url protocols = None ->
  length (heap (connect k w)) = S (length (heap w)).
Proof.
  intros Hok; unfold connect; rewrite Hok; simpl.
  rewrite length_app; simpl; lia.
Qed.

Lemma render_isConnected (w : Instance) :
  isConnected (hook (render w)) = isConnected (hook w).
Proof.
  unfold render; destruct (mounted w); [|reflexivity].
  case_decide; [reflexivity|]; simpl.
  rewrite connect_isConnected, cleanup_hook; reflexivity.
Qed.

Lemma render_unmounted (w : Instance) : mounted w = false -> render w = w.
Proof. unfold render; intros ->; reflexivity. Qed.

Lemma timeout_callback_isConnected (k : nat) (w : Instance) :
  isConnected (hook (timeout_callback k w)) = isConnected (hook w).
Proof. unfold timeout_callback; rewrite connect_isConnected; reflexivity. Qed.

Lemma sendMessage_isConnected (message : value) (w : Instance) :
  isConnected (hook (sendMessage message w)) = isConnected (hook w).
Proof.
  unfold sendMessage.
  destruct (socket (hook w)) as [ws|]; [|reflexivity].
  destruct (readyState_of w ws) as [[]|]; reflexivity.
Qed.

Lemma onmessage_isConnected (raw : string) (w : Instance) :
  isConnected (hook (onmessage raw w)) = isConnected (hook w).
Proof. unfold onmessage; destruct (JSON_parse P raw); reflexivity. Qed.

Lemma onerror_hook (w : Instance) :
  hook (onerror w)
  = {| socket := socket (hook w); data := data (hook w);
       isConnected := false; error := Some "WebSocket error occurred";
       reconnectCount := reconnectCount (hook w) |}.
Proof. reflexivity. Qed.

(** What each event does to [isConnected]: it is true after an open, false
    after an error or a close, and what it was before after a message, a
    timer, a send, the unmount, and the render that follows any of them.  In
    particular it reads false as soon as [onerror] has run. *)
Lemma isConnected_after_step (e : Event) (w w' : Instance) :
  step e w = Some w' ->
  isConnected (hook w')
  = match e with
    | EvOpen _ => true
    | EvError _ | EvClose _ => false
    | _ => isConnected (hook w)
    end
  /\ isConnected (hook (onerror w)) = false.
Proof.
  unfold step; intros Hstep.
  split; [|rewrite onerror_hook; reflexivity].
  destruct (dispatch e w) as [w1|] eqn:Hd; [|discriminate].
  simpl in Hstep; injection Hstep as <-.
  rewrite render_isConnected.
  destruct e as [ws|ws raw|ws|ws|i|message|]; simpl in Hd.
  - destruct (heap w !! ws) as [s|]; [|discriminate].
    destruct (readyState s); try discriminate.
    injection Hd as <-; rewrite onopen_hook; reflexivity.
  - destruct (heap w !! ws) as [s|]; [|discriminate].
    destruct (readyState s); try discriminate.
    injection Hd as <-; apply onmessage_isConnected.
  - destruct (heap w !! ws) as [s|]; [|discriminate].
    destruct (readyState s); try discriminate;
      injection Hd as <-; rewrite onclose_hook; reflexivity.
  - destruct (heap w !! ws) as [s|]; [|discriminate].
    destruct (readyState s); try discriminate;
      injection Hd as <-; rewrite onclose_hook; reflexivity.
  - destruct (timers w !! i) as [t|]; [|discriminate].
    injection Hd as <-; rewrite timeout_callback_isConnected; reflexivity.
  - destruct (mounted w); [|discriminate].
    injection Hd as <-; apply sendMessage_isConnected.
  - destruct (mounted w); [|discriminate].
    injection Hd as <-; unfold unmount; simpl.
    rewrite cleanup_hook; reflexivity.
Qed.

Lemma cleanup_other_sockets (w : Instance) (ws : nat) :
  cleanup_socket w <> Some ws -> heap (cleanup w) !! ws = heap w !! ws.
Proof.
  unfold cleanup; destruct (cleanup_socket w) as [c|]; [|reflexivity].
  intros Hne; unfold ws_close, with_heap; simpl.
  apply list_lookup_alter_ne; congruence.
Qed.

(** C1 (amended).  Teardown runs the effect's cleanup, which calls
    [close()] on the socket it closed over if there is one, and nothing
    else: the state cells, the other sockets and the pending timers are as
    before.  So a reconnect timer scheduled before teardown is still pending
    after it, and when it fires [connect] is called once more, building a
    socket unless the constructor throws. *)
Theorem teardown_keeps_timers (w : Instance) (i : nat) (t : Timer) :
  timers w !! i = Some t ->
  mounted (unmount w) = false
  /\ timers (unmount w) = timers w
  /\ hook (unmount w) = hook w
  /\ (forall ws, cleanup_socket w <> Some ws ->
        heap (unmount w) !! ws = heap w !! ws)
  /\ exists w',
       step (EvTimer i) (unmount w) = Some w'
       /\ connect_calls w' = S (connect_calls w)
       /\ (WebSocket_throws P url protocols = None ->
           length (heap w') = S (length (heap w))).
Proof.
  intros Ht.
  assert (Htm : timers (unmount w) = timers w)
    by (unfold unmount; simpl; apply cleanup_timers).
  split; [reflexivity|].
  split; [exact Htm|].
  split; [unfold unmount; simpl; apply cleanup_hook|].
  split; [intros ws Hne; unfold unmount; simpl;
          apply cleanup_other_sockets; exact Hne|].
  exists (timeout_callback (timer_count t)
            (with_timers (delete i) (unmount w))).
  split.
  - unfold step; simpl dispatch.
    change (timers (unmount w)) with (timers (cleanup w)).
    rewrite cleanup_timers, Ht; simpl.
    rewrite render_unmounted; [reflexivity|].
    unfold timeout_callback; rewrite connect_mounted; reflexivity.
  - split.
    + unfold timeout_callback; rewrite connect_connect_calls; simpl.
      rewrite cleanup_connect_calls; reflexivity.
    + intros Hok; unfold timeout_callback.
      rewrite connect_length by assumption; simpl.
      rewrite cleanup_length; reflexivity.
Qed.

Lemma run_app (es es' : list Event) (w : Instance) :
  run (es ++ es') w
  = match run es w with Some w' => run es' w' | None => None end.
Proof.
  revert w; induction es as [|e es IH]; intros w; simpl; [reflexivity|].
  destruct (step e w); [apply IH | reflexivity].
Qed.

(** Induction over the reachable instances. *)
Lemma reachable_ind (Inv : Instance -> Prop) :
  Inv mount ->
  (forall e w w', Inv w -> step e w = Some w' -> Inv w') ->
  forall w, reachable w -> Inv w.
Proof.
  intros Hmount Hstep w [es Hes].
  assert (Hgen : forall es w0 w1, Inv w0 -> run es w0 = Some w1 -> Inv w1).
  { clear es Hes w; intros es; induction es as [|e es IH];
      intros w0 w1 H0 Hrun; simpl in Hrun.
    - injection Hrun as <-; exact H0.
    - destruct (step e w0) as [w0'|] eqn:He; [|discriminate].
      apply (IH w0' w1); [apply (Hstep e w0 w0'); assumption | exact Hrun]. }
  apply (Hgen es mount w Hmount Hes).
Qed.

Lemma connect_error_truthy (k : nat) (w : Instance) :
  error_truthy w -> error_truthy (connect k w).
Proof.
  unfold error_truthy, connect; intros Hw e.
  destruct (WebSocket_throws P url protocols); simpl.
  - intros [= <-]; reflexivity.
  - apply Hw.
Qed.

Lemma render_error_truthy (w : Instance) :
  error_truthy w -> error_truthy (render w).
Proof.
  intros Hw; unfold render; destruct (mounted w); [|exact Hw].
  case_decide; [exact Hw|].
  pose proof (connect_error_truthy (reconnectCount (hook w)) (cleanup w)) as Hc.
  unfold error_truthy in *; simpl; apply Hc.
  rewrite cleanup_hook; exact Hw.
Qed.

Lemma dispatch_error_truthy (e : Event) (w w' : Instance) :
  error_truthy w -> dispatch e w = Some w' -> error_truthy w'.
Proof.
  intros Hw Hd.
  destruct e as [ws|ws raw|ws|ws|i|message|]; simpl in Hd.
  - destruct (heap w !! ws) as [s|]; [|discriminate].
    destruct (readyState s); try discriminate.
    injection Hd as <-; intros e; rewrite onopen_hook; discriminate.
  - destruct (heap w !! ws) as [s|]; [|discriminate].
    destruct (readyState s); try discriminate.
    injection Hd as <-; unfold onmessage.
    destruct (JSON_parse P raw); [exact Hw|].
    intros e [= <-]; reflexivity.
  - destruct (heap w !! ws) as [s|]; [|discriminate].
    destruct (readyState s); try discriminate;
      injection Hd as <-; intros e; rewrite onclose_error;
      intros [= <-]; reflexivity.
  - destruct (heap w !! ws) as [s|]; [|discriminate].
    destruct (readyState s); try discriminate;
      injection Hd as <-; intros e; rewrite onclose_error;
      intros [= <-]; reflexivity.
  - destruct (timers w !! i) as [t|]; [|discriminate].
    injection Hd as <-; unfold timeout_callback.
    apply connect_error_truthy; exact Hw.
  - destruct (mounted w); [|discriminate].
    injection Hd as <-; unfold sendMessage.
    destruct (socket (hook w)) as [ws|];
      [destruct (readyState_of w ws) as [[]|]|];
      try exact Hw; intros e [= <-]; reflexivity.
  - destruct (mounted w); [|discriminate].
    injection Hd as <-; unfold error_truthy, unmount; simpl.
    rewrite cleanup_hook; exact Hw.
Qed.

Lemma reachable_error_truthy (w : Instance) :
  reachable w -> error_truthy w.
Proof.
  apply reachable_ind.
  - unfold mount; apply connect_error_truthy; intros e; discriminate.
  - intros e w0 w1 H0; unfold step.
    destruct (dispatch e w0) as [w0'|] eqn:Hd; [|discriminate].
    simpl; intros [= <-].
    apply render_error_truthy, (dispatch_error_truthy e w0); assumption.
Qed.

(** After a render, a mounted component's [connect] is the one built with
    the current [reconnectCount]. *)
Lemma render_memo (w : Instance) :
  mounted (render w) = true ->
  reconnectCount (hook (render w)) = memo_count (render w).
Proof.
  unfold render; destruct (mounted w) eqn:Hm; [|congruence].
  case_decide; [intros _; assumption|]; simpl; intros _.
  rewrite connect_reconnectCount, cleanup_hook; reflexivity.
Qed.

Lemma reachable_memo (w : Instance) :
  reachable w ->
  mounted w = true ->
  reconnectCount (hook w) = memo_count w.
Proof.
  revert w.
  apply (reachable_ind
           (fun w => mounted w = true ->
                     reconnectCount (hook w) = memo_count w)).
  - intros _; unfold mount, connect.
    destruct (WebSocket_throws P url protocols); reflexivity.
  - intros e w w' _; unfold step.
    destruct (dispatch e w) as [w1|]; [|discriminate].
    simpl; intros [= <-]; apply render_memo.
Qed.

(** C4.  A frame that [JSON.parse] refuses, arriving on an open socket,
    sets [error] to the decode-failure message and changes nothing else,
    the render that follows included: [data] keeps the last decoded value,
    [isConnected] keeps its value (so it stays true), and no socket, stored
    or not, changes state. *)
Theorem message_parse_failure (w : Instance) (ws : nat) (s : WebSocket)
    (raw : string) :
  reachable w ->
  heap w !! ws = Some s ->
  readyState s = OPEN ->
  JSON_parse P raw = None ->
  exists w',
    step (EvMessage ws raw) w = Some w'
    /\ error (hook w') = Some "Failed to parse message data"
    /\ data (hook w') = data (hook w)
    /\ isConnected (hook w') = isConnected (hook w)
    /\ socket (hook w') = socket (hook w)
    /\ reconnectCount (hook w') = reconnectCount (hook w)
    /\ heap w' = heap w
    /\ stored_readyState w' = stored_readyState w
    /\ timers w' = timers w.
Proof.
  intros Hreach Hs Hr Hparse.
  exists (onmessage raw w).
  split; [|unfold onmessage; rewrite Hparse; repeat split].
  unfold step; simpl; rewrite Hs, Hr; simpl; f_equal.
  unfold onmessage; rewrite Hparse.
  unfold render; simpl.
  destruct (mounted w) eqn:Hm; [|reflexivity].
  rewrite (reachable_memo w Hreach Hm).
  case_decide; [reflexivity|congruence].
Qed.

(** C10.  Whenever the hook exposes a set [error], [Display] returns the
    alert with that text and nothing else: no badge, no grid and no
    last-updated line, whatever [isConnected] and [data] are. *)
Theorem Display_error_alert_only (w : Instance) (e : string) :
  reachable w ->
  error (hook w) = Some e ->
  Display (exposed w) = Alert e
  /\ renders_badge (Display (exposed w)) = false
  /\ renders_grid (Display (exposed w)) = false
  /\ renders_last_updated (Display (exposed w)) = false.
Proof.
  intros Hreach He.
  assert (HD : Display (exposed w) = Alert e).
  { unfold Display, exposed; simpl; rewrite He.
    rewrite (reachable_error_truthy w Hreach e He); reflexivity. }
  rewrite HD; repeat split.
Qed.

(** *** Reconnection over runs *)

Lemma render_timers (w : Instance) : timers (render w) = timers w.
Proof.
  unfold render; destruct (mounted w); [|reflexivity].
  case_decide; [reflexivity|]; simpl.
  rewrite connect_timers, cleanup_timers; reflexivity.
Qed.

Lemma cleanup_stale_live (w : Instance) :
  stale_socket_live w -> stale_socket_live (cleanup w).
Proof.
  intros (ws & s & Hs & Hk & Hr); unfold cleanup.
  destruct (cleanup_socket w) as [c|]; [|exists ws, s; auto].
  unfold ws_close, with_heap, stale_socket_live; simpl.
  destruct (decide (c = ws)) as [->|Hne].
  - eexists ws, _; rewrite list_lookup_alter_eq, Hs; simpl.
    split; [reflexivity|].
    destruct (readyState s) eqn:E; simpl; (split; [exact Hk | congruence]).
  - exists ws, s; rewrite list_lookup_alter_ne by assumption; auto.
Qed.

Lemma connect_stale_live (k : nat) (w : Instance) :
  stale_socket_live w -> stale_socket_live (connect k w).
Proof.
  intros (ws & s & Hs & Hk & Hr); exists ws, s.
  split; [|auto].
  unfold connect; destruct (WebSocket_throws P url protocols); simpl;
    [exact Hs|].
  apply lookup_app_l_Some; exact Hs.
Qed.

Lemma connect_zero_live (w : Instance) :
  WebSocket_throws P url protocols = None ->
  stale_socket_live (connect 0 w).
Proof.
  intros Hok; unfold connect; rewrite Hok.
  eexists (length (heap w)), _; simpl.
  rewrite list_lookup_middle by reflexivity.
  split; [reflexivity|]; split; [reflexivity|discriminate].
Qed.

Lemma render_stale_live (w : Instance) :
  stale_socket_live w -> stale_socket_live (render w).
Proof.
  intros Hw; unfold render; destruct (mounted w); [|exact Hw].
  case_decide; [exact Hw|].
  apply (connect_stale_live (reconnectCount (hook w))) in Hw as Hc.
  apply cleanup_stale_live in Hw.
  apply (connect_stale_live (reconnectCount (hook w))) in Hw.
  exact Hw.
Qed.

(** The close of a socket whose handlers hold [reconnectCount = 0]
    schedules a retry at the base delay, whatever the state cell holds. *)
Lemma stale_close_schedules (w : Instance) :
  reconnect = true ->
  (0 < reconnectAttempts)%Z ->
  stale_socket_live w ->
  exists ws w',
    step (EvClose ws) w = Some w'
    /\ timers w'
       = timers w ++ [{| delay := reconnectInterval; timer_count := 0 |}].
Proof.
  intros Hre Hmax (ws & s & Hs & Hk & Hr).
  assert (Hlt : (Z.of_nat 0 <? reconnectAttempts)%Z = true)
    by (apply Z.ltb_lt; exact Hmax).
  exists ws, (render (onclose 0 (set_readyState ws CLOSED w))); split.
  - unfold step; simpl; rewrite Hs, Hk.
    destruct (readyState s); try congruence; reflexivity.
  - rewrite render_timers, onclose_timers, Hre, Hlt; simpl.
    rewrite Z.mul_1_r; reflexivity.
Qed.

(** The timer so scheduled calls the [connect] closure it came from, which
    builds another socket whose handlers hold [reconnectCount = 0]. *)
Lemma stale_timer_reconnects (w : Instance) (i : nat) (t : Timer) :
  WebSocket_throws P url protocols = None ->
  timers w !! i = Some t ->
  timer_count t = 0 ->
  exists w', step (EvTimer i) w = Some w' /\ stale_socket_live w'.
Proof.
  intros Hok Ht Hk; unfold step; simpl; rewrite Ht, Hk.
  eexists; split; [reflexivity|].
  apply render_stale_live; unfold timeout_callback.
  apply connect_zero_live; exact Hok.
Qed.

Lemma timer_fires_app (es es' : list Event) :
  timer_fires (es ++ es') = timer_fires es + timer_fires es'.
Proof.
  unfold timer_fires; rewrite List.filter_app, length_app; reflexivity.
Qed.

(** X15.  With retries on and at least one allowed, a run of failures can fire
    any number of reconnect timers: the retry chain of the first [connect]
    closure never sees [reconnectCount] grow. *)
Lemma stale_closure_retries_unbounded :
  WebSocket_throws P url protocols = None ->
  reconnect = true ->
  (0 < reconnectAttempts)%Z ->
  forall n, exists es w,
    run es mount = Some w
    /\ forallb failure_event es = true
    /\ timer_fires es = n
    /\ stale_socket_live w.
Proof.
  intros Hok Hre Hmax n; induction n as [|n IH].
  - exists [], mount; repeat split.
    unfold mount; apply connect_zero_live; exact Hok.
  - destruct IH as (es & w & Hrun & Hfail & Hn & Hlive).
    destruct (stale_close_schedules w Hre Hmax Hlive)
      as (ws & w1 & Hclose & Htimers).
    destruct (stale_timer_reconnects w1 (length (timers w))
                {| delay := reconnectInterval; timer_count := 0 |} Hok)
      as (w2 & Htimer & Hlive2).
    { rewrite Htimers; apply list_lookup_middle; reflexivity. }
    { reflexivity. }
    exists (es ++ [EvClose ws; EvTimer (length (timers w))]), w2.
    split; [|split; [|split]].
    + rewrite run_app, Hrun; simpl; rewrite Hclose, Htimer; reflexivity.
    + rewrite forallb_app, Hfail; reflexivity.
    + rewrite timer_fires_app, Hn; unfold timer_fires; simpl; lia.
    + exact Hlive2.
Qed.

(** X14.  With [reconnect] off no timer is ever scheduled, so [connect] is
    called once, by the mount. *)
Lemma no_reconnect_no_timers (w : Instance) :
  reconnect = false ->
  reachable w ->
  timers w = [] /\ connect_calls w = 1
  /\ reconnectCount (hook w) = 0 /\ memo_count w = 0.
Proof.
  intros Hre; revert w; apply reachable_ind.
  - unfold mount, connect.
    destruct (WebSocket_throws P url protocols); repeat split.
  - intros e w w' (Ht & Hc & Hk & Hm); unfold step.
    destruct (dispatch e w) as [w1|] eqn:Hd; [|discriminate].
    simpl; intros [= <-].
    assert (H1 : timers w1 = [] /\ connect_calls w1 = 1
                 /\ reconnectCount (hook w1) = 0 /\ memo_count w1 = 0).
    { destruct e as [ws|ws raw|ws|ws|i|message|]; simpl in Hd.
      - destruct (heap w !! ws) as [s|]; [|discriminate].
        destruct (readyState s); try discriminate.
        injection Hd as <-; rewrite onopen_timers, onopen_hook.
        unfold onopen.
        destruct apiKey as [key|]; [destruct (truthy_string key)|];
          destruct (truthy subscribeMessage); simpl; auto.
      - destruct (heap w !! ws) as [s|]; [|discriminate].
        destruct (readyState s); try discriminate.
        injection Hd as <-; unfold onmessage.
        destruct (JSON_parse P raw); simpl; auto.
      - destruct (heap w !! ws) as [s|]; [|discriminate].
        destruct (readyState s); try discriminate;
          injection Hd as <-; rewrite onclose_timers, onclose_hook, Hre;
          unfold onclose; rewrite Hre; simpl; auto.
      - destruct (heap w !! ws) as [s|]; [|discriminate].
        destruct (readyState s); try discriminate;
          injection Hd as <-; rewrite onclose_timers, onclose_hook, Hre;
          unfold onclose; rewrite Hre; simpl; auto.
      - rewrite Ht in Hd; rewrite lookup_nil in Hd; discriminate.
      - destruct (mounted w); [|discriminate].
        injection Hd as <-; unfold sendMessage.
        destruct (socket (hook w)) as [ws|];
          [destruct (readyState_of w ws) as [[]|]|]; simpl; auto.
      - destruct (mounted w); [|discriminate].
        injection Hd as <-; unfold unmount; simpl.
        rewrite cleanup_timers, cleanup_connect_calls, cleanup_hook.
        unfold cleanup; destruct (cleanup_socket w); simpl; auto. }
    destruct H1 as (Ht1 & Hc1 & Hk1 & Hm1).
    unfold render; destruct (mounted w1); [|auto].
    rewrite Hk1, Hm1; case_decide; [auto|congruence].
Qed.

(** ** Further properties of runs *)

(** What an enabled event ran. *)
Lemma dispatch_inv (e : Event) (w w1 : Instance) :
  dispatch e w = Some w1 ->
  match e with
  | EvOpen ws =>
      exists s, heap w !! ws = Some s /\ readyState s = CONNECTING
                /\ w1 = onopen ws (set_readyState ws OPEN w)
  | EvMessage ws raw =>
      exists s, heap w !! ws = Some s /\ readyState s = OPEN
                /\ w1 = onmessage raw w
  | EvError ws =>
      exists s, heap w !! ws = Some s /\ readyState s <> CLOSED
                /\ w1 = onclose (closure_count s)
                          (onerror (set_readyState ws CLOSED w))
  | EvClose ws =>
      exists s, heap w !! ws = Some s /\ readyState s <> CLOSED
                /\ w1 = onclose (closure_count s) (set_readyState ws CLOSED w)
  | EvTimer i =>
      exists t, timers w !! i = Some t
                /\ w1 = timeout_callback (timer_count t)
                          (with_timers (delete i) w)
  | EvSend message => mounted w = true /\ w1 = sendMessage message w
  | EvUnmount => mounted w = true /\ w1 = unmount w
  end.
Proof.
  destruct e as [ws|ws raw|ws|ws|i|message|]; simpl; intros Hd.
  - destruct (heap w !! ws) as [s|]; [|discriminate].
    destruct (readyState s) eqn:E; try discriminate.
    injection Hd as <-; eauto.
  - destruct (heap w !! ws) as [s|]; [|discriminate].
    destruct (readyState s) eqn:E; try discriminate.
    injection Hd as <-; eauto.
  - destruct (heap w !! ws) as [s|]; [|discriminate].
    destruct (readyState s) eqn:E; try discriminate;
      injection Hd as <-; exists s; rewrite E; repeat split; discriminate.
  - destruct (heap w !! ws) as [s|]; [|discriminate].
    destruct (readyState s) eqn:E; try discriminate;
      injection Hd as <-; exists s; rewrite E; repeat split; discriminate.
  - destruct (timers w !! i) as [t|]; [|discriminate].
    injection Hd as <-; eauto.
  - destruct (mounted w); [|discriminate].
    injection Hd as <-; auto.
  - destruct (mounted w); [|discriminate].
    injection Hd as <-; auto.
Qed.

Lemma step_inv (e : Event) (w w' : Instance) :
  step e w = Some w' ->
  exists w1, dispatch e w = Some w1 /\ w' = render w1.
Proof.
  unfold step; destruct (dispatch e w) as [w1|]; [|discriminate].
  simpl; intros [= <-]; eauto.
Qed.

Lemma reachable_step (e : Event) (w w' : Instance) :
  reachable w -> step e w = Some w' -> reachable w'.
Proof.
  intros [es Hes] Hstep; exists (es ++ [e]).
  rewrite run_app, Hes; simpl; rewrite Hstep; reflexivity.
Qed.

Lemma connect_hook_data (k : nat) (w : Instance) :
  data (hook (connect k w)) = data (hook w).
Proof.
  unfold connect; destruct (WebSocket_throws P url protocols); reflexivity.
Qed.

Lemma render_data (w : Instance) : data (hook (render w)) = data (hook w).
Proof.
  unfold render; destruct (mounted w); [|reflexivity].
  case_decide; [reflexivity|]; simpl.
  rewrite connect_hook_data, cleanup_hook; reflexivity.
Qed.

Lemma render_reconnectCount (w : Instance) :
  reconnectCount (hook (render w)) = reconnectCount (hook w).
Proof.
  unfold render; destruct (mounted w); [|reflexivity].
  case_decide; [reflexivity|]; simpl.
  rewrite connect_reconnectCount, cleanup_hook; reflexivity.
Qed.

Lemma sendMessage_hook_open (message : value) (w : Instance) :
  stored_readyState w = Some OPEN -> hook (sendMessage message w) = hook w.
Proof.
  unfold stored_readyState, sendMessage.
  destruct (socket (hook w)) as [ws|]; [|discriminate].
  intros ->; reflexivity.
Qed.

Lemma sendMessage_data (message : value) (w : Instance) :
  data (hook (sendMessage message w)) = data (hook w).
Proof.
  unfold sendMessage.
  destruct (socket (hook w)) as [ws|]; [|reflexivity].
  destruct (readyState_of w ws) as [[]|]; reflexivity.
Qed.

Lemma sendMessage_reconnectCount (message : value) (w : Instance) :
  reconnectCount (hook (sendMessage message w)) = reconnectCount (hook w).
Proof.
  unfold sendMessage.
  destruct (socket (hook w)) as [ws|]; [|reflexivity].
  destruct (readyState_of w ws) as [[]|]; reflexivity.
Qed.

(** X1.  [data] is written by a frame that parses, on whichever socket of the
    instance it arrives, stored or not, and by nothing else: after any
    other event, a frame that fails to parse included, it is what it was. *)
Theorem data_after_step (e : Event) (w w' : Instance) :
  step e w = Some w' ->
  data (hook w')
  = match e with
    | EvMessage _ raw =>
        match JSON_parse P raw with
        | Some parsed => parsed
        | None => data (hook w)
        end
    | _ => data (hook w)
    end.
Proof.
  intros Hstep; destruct (step_inv e w w' Hstep) as (w1 & Hd & ->).
  rewrite render_data.
  apply dispatch_inv in Hd.
  destruct e as [ws|ws raw|ws|ws|i|message|].
  - destruct Hd as (s & _ & _ & ->); rewrite onopen_hook; reflexivity.
  - destruct Hd as (s & _ & _ & ->); unfold onmessage.
    destruct (JSON_parse P raw); reflexivity.
  - destruct Hd as (s & _ & _ & ->); rewrite onclose_hook; reflexivity.
  - destruct Hd as (s & _ & _ & ->); rewrite onclose_hook; reflexivity.
  - destruct Hd as (t & _ & ->); unfold timeout_callback.
    rewrite connect_hook_data; reflexivity.
  - destruct Hd as (_ & ->); apply sendMessage_data.
  - destruct Hd as (_ & ->); unfold unmount; simpl.
    rewrite cleanup_hook; reflexivity.
Qed.

(** X3.  The state cell [reconnectCount] is 0 after an open, one more after a
    timer has fired, and unchanged by every other event: it counts the
    timers fired since the last open of any socket of the instance. *)
Theorem reconnectCount_after_step (e : Event) (w w' : Instance) :
  step e w = Some w' ->
  reconnectCount (hook w')
  = match e with
    | EvOpen _ => 0
    | EvTimer _ => reconnectCount (hook w) + 1
    | _ => reconnectCount (hook w)
    end.
Proof.
  intros Hstep; destruct (step_inv e w w' Hstep) as (w1 & Hd & ->).
  rewrite render_reconnectCount.
  apply dispatch_inv in Hd.
  destruct e as [ws|ws raw|ws|ws|i|message|].
  - destruct Hd as (s & _ & _ & ->); rewrite onopen_hook; reflexivity.
  - destruct Hd as (s & _ & _ & ->); unfold onmessage.
    destruct (JSON_parse P raw); reflexivity.
  - destruct Hd as (s & _ & _ & ->); rewrite onclose_hook; reflexivity.
  - destruct Hd as (s & _ & _ & ->); rewrite onclose_hook; reflexivity.
  - destruct Hd as (t & _ & ->); unfold timeout_callback.
    rewrite connect_reconnectCount; reflexivity.
  - destruct Hd as (_ & ->); apply sendMessage_reconnectCount.
  - destruct Hd as (_ & ->); unfold unmount; simpl.
    rewrite cleanup_hook; reflexivity.
Qed.

Lemma connect_error_set (k : nat) (w : Instance) :
  is_Some (error (hook w)) -> is_Some (error (hook (connect k w))).
Proof.
  unfold connect; destruct (WebSocket_throws P url protocols); simpl; eauto.
Qed.

Lemma render_error_set (w : Instance) :
  is_Some (error (hook w)) -> is_Some (error (hook (render w))).
Proof.
  intros Hw; unfold render; destruct (mounted w); [|exact Hw].
  case_decide; [exact Hw|]; simpl.
  apply connect_error_set; rewrite cleanup_hook; exact Hw.
Qed.

(** X2.  Only an open clears [error].  Once it is set, every event that is not
    the open of a socket leaves it set, a frame that parses included, and
    [Display] keeps returning the alert alone, with the text of the error
    then current. *)
Theorem error_stays_until_open (e : Event) (w w' : Instance) :
  reachable w ->
  is_Some (error (hook w)) ->
  step e w = Some w' ->
  (forall ws, e <> EvOpen ws) ->
  exists text,
    error (hook w') = Some text /\ Display (exposed w') = Alert text.
Proof.
  intros Hreach Herr Hstep Hno.
  assert (Hset : is_Some (error (hook w'))).
  { destruct (step_inv e w w' Hstep) as (w1 & Hd & ->).
    apply render_error_set.
    apply dispatch_inv in Hd.
    destruct e as [ws|ws raw|ws|ws|i|message|].
    - exfalso; apply (Hno ws); reflexivity.
    - destruct Hd as (s & _ & _ & ->); unfold onmessage.
      destruct (JSON_parse P raw); simpl; eauto.
    - destruct Hd as (s & _ & _ & ->); rewrite onclose_error; eauto.
    - destruct Hd as (s & _ & _ & ->); rewrite onclose_error; eauto.
    - destruct Hd as (t & _ & ->); unfold timeout_callback.
      apply connect_error_set; exact Herr.
    - destruct Hd as (_ & ->); unfold sendMessage.
      destruct (socket (hook w)) as [ws|];
        [destruct (readyState_of w ws) as [[]|]|]; simpl; eauto.
    - destruct Hd as (_ & ->); unfold unmount; simpl.
      rewrite cleanup_hook; exact Herr. }
  destruct Hset as [text Htext]; exists text; split; [exact Htext|].
  assert (Hreach' : reachable w') by (eapply reachable_step; eassumption).
  unfold Display, exposed; simpl; rewrite Htext.
  rewrite (reachable_error_truthy w' Hreach' text Htext); reflexivity.
Qed.

(** *** Which socket is stored, and which one teardown closes *)

Lemma same_shape_refl (w : Instance) : same_shape w w.
Proof. repeat split. Qed.

Lemma same_shape_trans (w1 w2 w3 : Instance) :
  same_shape w1 w2 -> same_shape w2 w3 -> same_shape w1 w3.
Proof.
  unfold same_shape; intros (H1 & H2 & H3 & H4 & H5) (K1 & K2 & K3 & K4 & K5).
  repeat split; congruence.
Qed.

Lemma same_shape_with_hook (f : HookState -> HookState) (w : Instance) :
  (forall h, socket (f h) = socket h) -> same_shape w (with_hook f w).
Proof. intros Hf; repeat split; simpl; apply Hf. Qed.

Lemma same_shape_alter (f : WebSocket -> WebSocket) (ws : nat) (w : Instance) :
  same_shape w (with_heap (alter f ws) w).
Proof. repeat split; simpl; apply length_alter. Qed.

Lemma same_shape_with_timers (f : list Timer -> list Timer) (w : Instance) :
  same_shape w (with_timers f w).
Proof. repeat split. Qed.

Lemma same_shape_onopen (ws : nat) (w : Instance) :
  same_shape w (onopen ws w).
Proof.
  unfold onopen.
  pose proof (same_shape_alter) as Ha.
  destruct apiKey as [key|]; [destruct (truthy_string key)|];
    destruct (truthy subscribeMessage);
    repeat split; simpl; rewrite ?length_alter; reflexivity.
Qed.

Lemma same_shape_onmessage (raw : string) (w : Instance) :
  same_shape w (onmessage raw w).
Proof. unfold onmessage; destruct (JSON_parse P raw); repeat split. Qed.

Lemma same_shape_onerror (w : Instance) : same_shape w (onerror w).
Proof. repeat split. Qed.

Lemma same_shape_onclose (k : nat) (w : Instance) :
  same_shape w (onclose k w).
Proof.
  unfold onclose.
  destruct (reconnect && (Z.of_nat k <? reconnectAttempts)%Z); repeat split.
Qed.

Lemma same_shape_sendMessage (message : value) (w : Instance) :
  same_shape w (sendMessage message w).
Proof.
  unfold sendMessage.
  destruct (socket (hook w)) as [ws|]; [|repeat split].
  destruct (readyState_of w ws) as [[]|]; repeat split.
  simpl; apply length_alter.
Qed.

Lemma same_shape_cleanup (w : Instance) : same_shape w (cleanup w).
Proof.
  unfold cleanup; destruct (cleanup_socket w); [|apply same_shape_refl].
  apply same_shape_alter.
Qed.

Lemma same_shape_set_readyState (ws : nat) (r : ReadyState) (w : Instance) :
  same_shape w (set_readyState ws r w).
Proof. apply same_shape_alter. Qed.

Lemma connect_heap (k : nat) (w : Instance) :
  heap (connect k w)
  = match WebSocket_throws P url protocols with
    | None => heap w ++ [{| readyState := CONNECTING; closure_count := k;
                            sent := [] |}]
    | Some _ => heap w
    end.
Proof.
  unfold connect; destruct (WebSocket_throws P url protocols); reflexivity.
Qed.

Lemma connect_socket (k : nat) (w : Instance) :
  socket (hook (connect k w))
  = match WebSocket_throws P url protocols with
    | None => Some (length (heap w))
    | Some _ => socket (hook w)
    end.
Proof.
  unfold connect; destruct (WebSocket_throws P url protocols); reflexivity.
Qed.

Lemma connect_cleanup_socket (k : nat) (w : Instance) :
  cleanup_socket (connect k w) = cleanup_socket w.
Proof.
  unfold connect; destruct (WebSocket_throws P url protocols); reflexivity.
Qed.

Lemma connect_memo_count (k : nat) (w : Instance) :
  memo_count (connect k w) = memo_count w.
Proof.
  unfold connect; destruct (WebSocket_throws P url protocols); reflexivity.
Qed.

Lemma latest_socket_snoc (w w' : Instance) (x : WebSocket) :
  heap w' = heap w ++ [x] -> latest_socket w' = Some (length (heap w)).
Proof.
  unfold latest_socket; intros ->.
  rewrite length_app; simpl.
  replace (length (heap w) + 1) with (S (length (heap w))) by lia.
  reflexivity.
Qed.

Lemma latest_socket_same (w w' : Instance) :
  length (heap w') = length (heap w) -> latest_socket w' = latest_socket w.
Proof. unfold latest_socket; intros ->; reflexivity. Qed.

Lemma sockets_in_order_same_shape (w w' : Instance) :
  same_shape w w' ->
  (is_Some (WebSocket_throws P url protocols) ->
   heap w = [] -> timers w = [] -> heap w' = [] /\ timers w' = []) ->
  sockets_in_order w -> sockets_in_order w'.
Proof.
  intros (Hlen & Hsock & Hclean & _ & _) Hthrow (I1 & I2 & I3).
  split; [|split].
  - rewrite Hsock, (latest_socket_same w w' Hlen); exact I1.
  - intros c; rewrite Hclean, Hlen; apply I2.
  - intros Hs; destruct (I3 Hs) as [Hh Ht]; apply Hthrow; assumption.
Qed.

Lemma connect_in_order (k : nat) (w : Instance) :
  sockets_in_order w -> sockets_in_order (connect k w).
Proof.
  intros (I1 & I2 & I3).
  pose proof (connect_heap k w) as Hheap.
  pose proof (connect_socket k w) as Hsock.
  destruct (WebSocket_throws P url protocols) as [exn|] eqn:Hthrow.
  - split; [|split].
    + rewrite Hsock, (latest_socket_same w (connect k w)); [exact I1|].
      rewrite Hheap; reflexivity.
    + intros c; rewrite connect_cleanup_socket, Hheap; apply I2.
    + intros _; rewrite Hheap, connect_timers; apply I3; eauto.
  - split; [|split].
    + rewrite Hsock; symmetry; eapply latest_socket_snoc; exact Hheap.
    + intros c; rewrite connect_cleanup_socket, Hheap, length_app; simpl.
      intros Hc; apply I2 in Hc; lia.
    + intros [x Hx]; congruence.
Qed.

Lemma render_in_order (w : Instance) :
  sockets_in_order w -> sockets_in_order (render w).
Proof.
  intros Hw; unfold render; destruct (mounted w); [|exact Hw].
  case_decide; [exact Hw|].
  assert (Hc : sockets_in_order (cleanup w)).
  { apply (sockets_in_order_same_shape w); [apply same_shape_cleanup| |exact Hw].
    intros _ Hh Ht; rewrite cleanup_timers; split; [|exact Ht].
    pose proof (cleanup_length w) as Hl; rewrite Hh in Hl.
    destruct (heap (cleanup w)); [reflexivity|discriminate]. }
  destruct Hw as (I1 & _ & _).
  pose proof (connect_in_order (reconnectCount (hook w)) _ Hc) as (J1 & _ & J3).
  split; [exact J1|]; split; [|exact J3]; simpl.
  intros c Hc'; rewrite I1 in Hc'.
  rewrite connect_heap.
  unfold latest_socket in Hc'.
  destruct (WebSocket_throws P url protocols) as [exn|] eqn:Hthrow.
  - destruct Hc as (_ & _ & K3).
    assert (Hs : is_Some (WebSocket_throws P url protocols))
      by (rewrite Hthrow; eauto).
    destruct (K3 Hs) as [Hh _].
    pose proof (cleanup_length w) as Hl; rewrite Hh in Hl.
    rewrite <- Hl in Hc'; discriminate.
  - rewrite length_app, cleanup_length; simpl.
    destruct (length (heap w)); [discriminate|].
    injection Hc' as ->; lia.
Qed.

Lemma dispatch_in_order (e : Event) (w w1 : Instance) :
  sockets_in_order w -> dispatch e w = Some w1 -> sockets_in_order w1.
Proof.
  intros Hw Hd; apply dispatch_inv in Hd.
  assert (Hnonempty : forall ws s,
            heap w !! ws = Some s ->
            is_Some (WebSocket_throws P url protocols) -> False).
  { intros ws s Hs Ht; destruct Hw as (_ & _ & I3).
    destruct (I3 Ht) as [Hh _]; rewrite Hh in Hs; discriminate. }
  destruct e as [ws|ws raw|ws|ws|i|message|].
  - destruct Hd as (s & Hs & _ & ->).
    apply (sockets_in_order_same_shape w); [|intros Ht; destruct (Hnonempty ws s Hs Ht)|exact Hw].
    eapply same_shape_trans; [apply same_shape_set_readyState|apply same_shape_onopen].
  - destruct Hd as (s & Hs & _ & ->).
    apply (sockets_in_order_same_shape w); [|intros Ht; destruct (Hnonempty ws s Hs Ht)|exact Hw].
    apply same_shape_onmessage.
  - destruct Hd as (s & Hs & _ & ->).
    apply (sockets_in_order_same_shape w); [|intros Ht; destruct (Hnonempty ws s Hs Ht)|exact Hw].
    eapply same_shape_trans; [apply same_shape_set_readyState|].
    eapply same_shape_trans; [apply same_shape_onerror|apply same_shape_onclose].
  - destruct Hd as (s & Hs & _ & ->).
    apply (sockets_in_order_same_shape w); [|intros Ht; destruct (Hnonempty ws s Hs Ht)|exact Hw].
    eapply same_shape_trans; [apply same_shape_set_readyState|apply same_shape_onclose].
  - destruct Hd as (t & Ht & ->); unfold timeout_callback.
    apply connect_in_order.
    apply (sockets_in_order_same_shape w); [| |exact Hw].
    + eapply same_shape_trans;
        [apply same_shape_with_timers|apply same_shape_with_hook; reflexivity].
    + intros _ _ Hnil; rewrite Hnil in Ht; discriminate.
  - destruct Hd as (_ & ->).
    apply (sockets_in_order_same_shape w); [apply same_shape_sendMessage| |exact Hw].
    intros _ Hh Htm.
    pose proof (same_shape_sendMessage message w) as (Hl & _).
    rewrite Hh in Hl; split.
    + destruct (heap (sendMessage message w)); [reflexivity|discriminate].
    + unfold sendMessage.
      destruct (socket (hook w)) as [ws|];
        [destruct (readyState_of w ws) as [[]|]|]; exact Htm.
  - destruct Hd as (_ & ->).
    assert (Hc : sockets_in_order (cleanup w)); [|exact Hc].
    apply (sockets_in_order_same_shape w); [apply same_shape_cleanup| |exact Hw].
    intros _ Hh Htm; rewrite cleanup_timers; split; [|exact Htm].
    pose proof (cleanup_length w) as Hl; rewrite Hh in Hl.
    destruct (heap (cleanup w)); [reflexivity|discriminate].
Qed.

Lemma reachable_in_order (w : Instance) :
  reachable w -> sockets_in_order w.
Proof.
  apply reachable_ind.
  - unfold mount; apply connect_in_order.
    split; [reflexivity|]; split; [intros c; discriminate|].
    intros _; split; reflexivity.
  - intros e w0 w1 H0 Hstep.
    destruct (step_inv e w0 w1 Hstep) as (w0' & Hd & ->).
    apply render_in_order, (dispatch_in_order e w0); assumption.
Qed.

Lemma connect_length_le (k : nat) (w : Instance) :
  length (heap w) <= length (heap (connect k w)).
Proof.
  rewrite connect_heap; destruct (WebSocket_throws P url protocols);
    rewrite ?length_app; simpl; lia.
Qed.

Lemma render_length_le (w : Instance) :
  length (heap w) <= length (heap (render w)).
Proof.
  unfold render; destruct (mounted w); [|lia].
  case_decide; [lia|]; simpl.
  pose proof (connect_length_le (reconnectCount (hook w)) (cleanup w)) as Hle.
  rewrite cleanup_length in Hle; exact Hle.
Qed.

Lemma dispatch_length_le (e : Event) (w w1 : Instance) :
  dispatch e w = Some w1 -> length (heap w) <= length (heap w1).
Proof.
  intros Hd; apply dispatch_inv in Hd.
  destruct e as [ws|ws raw|ws|ws|i|message|].
  - destruct Hd as (s & _ & _ & ->).
    pose proof (same_shape_trans _ _ _
                  (same_shape_set_readyState ws OPEN w)
                  (same_shape_onopen ws _)) as (Hl & _); lia.
  - destruct Hd as (s & _ & _ & ->).
    pose proof (same_shape_onmessage raw w) as (Hl & _); lia.
  - destruct Hd as (s & _ & _ & ->).
    pose proof (same_shape_trans _ _ _
                  (same_shape_set_readyState ws CLOSED w)
                  (same_shape_trans _ _ _ (same_shape_onerror _)
                     (same_shape_onclose (closure_count s) _)))
      as (Hl & _); lia.
  - destruct Hd as (s & _ & _ & ->).
    pose proof (same_shape_trans _ _ _
                  (same_shape_set_readyState ws CLOSED w)
                  (same_shape_onclose (closure_count s) _)) as (Hl & _); lia.
  - destruct Hd as (t & _ & ->); unfold timeout_callback.
    apply (connect_length_le (timer_count t)
             (setReconnectCount (fun prev => prev + 1)
                (with_timers (delete i) w))).
  - destruct Hd as (_ & ->).
    pose proof (same_shape_sendMessage message w) as (Hl & _); lia.
  - destruct Hd as (_ & ->); unfold unmount; simpl.
    rewrite cleanup_length; lia.
Qed.

Lemma reachable_has_socket (w : Instance) :
  reachable w ->
  WebSocket_throws P url protocols = None ->
  0 < length (heap w).
Proof.
  intros Hreach Hok; revert w Hreach.
  apply (reachable_ind (fun w => 0 < length (heap w))).
  - unfold mount; rewrite connect_length by exact Hok; lia.
  - intros e w w' Hw Hstep.
    destruct (step_inv e w w' Hstep) as (w1 & Hd & ->).
    pose proof (dispatch_length_le e w w1 Hd).
    pose proof (render_length_le w1); lia.
Qed.

(** X4.  The stored socket is always the socket built last: a socket that has
    been replaced is never stored again.  There is one in every reachable
    instance unless the constructor throws, and then there is no socket at
    all. *)
Theorem stored_socket_is_latest (w : Instance) :
  reachable w ->
  match WebSocket_throws P url protocols with
  | None =>
      exists n, length (heap w) = S n /\ socket (hook w) = Some n
  | Some _ => heap w = [] /\ socket (hook w) = None
  end.
Proof.
  intros Hreach.
  destruct (reachable_in_order w Hreach) as (I1 & _ & I3).
  destruct (WebSocket_throws P url protocols) as [exn|] eqn:Hthrow.
  - assert (Hs : is_Some (Some exn)) by eauto.
    destruct (I3 Hs) as [Hh _]; split; [exact Hh|].
    rewrite I1; unfold latest_socket; rewrite Hh; reflexivity.
  - pose proof (reachable_has_socket w Hreach Hthrow) as Hpos.
    unfold latest_socket in I1.
    destruct (length (heap w)) as [|n]; [lia|].
    exists n; split; [reflexivity | exact I1].
Qed.

(** X5.  Teardown never closes the stored socket.  The cleanup closes over the
    [socket] of the render in which the effect last ran, which is older than
    the one that effect stored; so after the unmount the stored socket is in
    the state it was in, open if it was open. *)
Theorem teardown_spares_stored_socket (w : Instance) (ws : nat) :
  reachable w ->
  socket (hook w) = Some ws ->
  heap (unmount w) !! ws = heap w !! ws
  /\ stored_readyState (unmount w) = stored_readyState w.
Proof.
  intros Hreach Hsock.
  destruct (reachable_in_order w Hreach) as (I1 & I2 & _).
  assert (Hne : cleanup_socket w <> Some ws).
  { intros Hc; apply I2 in Hc.
    rewrite Hsock in I1; unfold latest_socket in I1.
    destruct (length (heap w)); [discriminate|].
    injection I1 as ->; lia. }
  assert (Hheap : heap (unmount w) !! ws = heap w !! ws)
    by (unfold unmount; simpl; apply cleanup_other_sockets; exact Hne).
  split; [exact Hheap|].
  unfold stored_readyState, readyState_of.
  replace (hook (unmount w)) with (hook w)
    by (unfold unmount; simpl; symmetry; apply cleanup_hook).
  rewrite Hsock, Hheap; reflexivity.
Qed.

Lemma render_effect (w : Instance) :
  mounted w = true ->
  reconnectCount (hook w) <> memo_count w ->
  render w
  = let w' := connect (reconnectCount (hook w)) (cleanup w) in
    {| hook := hook w'; heap := heap w'; timers := timers w';
       memo_count := reconnectCount (hook w);
       cleanup_socket := socket (hook w);
       mounted := true; connect_calls := connect_calls w' |}.
Proof.
  intros Hm Hne; unfold render; rewrite Hm.
  case_decide; [contradiction|reflexivity].
Qed.

Lemma cleanup_lookup_new (w : Instance) (ws : nat) :
  (forall c, cleanup_socket w = Some c -> c <> ws) ->
  heap (cleanup w) !! ws = heap w !! ws.
Proof.
  intros Hne; apply cleanup_other_sockets.
  intros Hc; apply (Hne ws Hc); reflexivity.
Qed.

(** X6.  Every retry builds two sockets.  When a timer fires on a mounted
    instance, its callback calls the [connect] closure it came from, and the
    render that follows, seeing [reconnectCount] changed, runs the effect,
    which calls the new [connect]: one socket whose handlers hold the old
    [reconnectCount] of the timer, and one, stored, whose handlers hold the
    new one.  Neither is closed by the cleanup, which closes over an older
    socket. *)
Theorem retry_builds_two_sockets (w : Instance) (i : nat) (t : Timer) :
  reachable w ->
  mounted w = true ->
  timers w !! i = Some t ->
  exists w',
    step (EvTimer i) w = Some w'
    /\ length (heap w') = length (heap w) + 2
    /\ connect_calls w' = connect_calls w + 2
    /\ heap w' !! length (heap w)
       = Some {| readyState := CONNECTING; closure_count := timer_count t;
                 sent := [] |}
    /\ heap w' !! S (length (heap w))
       = Some {| readyState := CONNECTING;
                 closure_count := reconnectCount (hook w) + 1; sent := [] |}
    /\ socket (hook w') = Some (S (length (heap w)))
    /\ cleanup_socket w' = Some (length (heap w)).
Proof.
  intros Hreach Hm Ht.
  destruct (reachable_in_order w Hreach) as (_ & I2 & I3).
  pose proof (reachable_memo w Hreach Hm) as Hmemo.
  assert (Hok : WebSocket_throws P url protocols = None).
  { destruct (WebSocket_throws P url protocols) as [exn|] eqn:Hthrow;
      [|reflexivity].
    assert (Hs : is_Some (Some exn)) by eauto.
    destruct (I3 Hs) as [_ Hnil]; rewrite Hnil in Ht; discriminate. }
  set (w1 := timeout_callback (timer_count t) (with_timers (delete i) w)).
  assert (Hheap1 : heap w1
                   = heap w ++ [{| readyState := CONNECTING;
                                   closure_count := timer_count t;
                                   sent := [] |}])
    by (unfold w1, timeout_callback; rewrite connect_heap, Hok; reflexivity).
  assert (Hsock1 : socket (hook w1) = Some (length (heap w)))
    by (unfold w1, timeout_callback; rewrite connect_socket, Hok; reflexivity).
  assert (Hcount1 : reconnectCount (hook w1) = reconnectCount (hook w) + 1)
    by (unfold w1, timeout_callback; rewrite connect_reconnectCount;
        reflexivity).
  assert (Hmemo1 : memo_count w1 = memo_count w)
    by (unfold w1, timeout_callback; rewrite connect_memo_count; reflexivity).
  assert (Hm1 : mounted w1 = true)
    by (unfold w1, timeout_callback; rewrite connect_mounted; exact Hm).
  assert (Hclean1 : cleanup_socket w1 = cleanup_socket w)
    by (unfold w1, timeout_callback; rewrite connect_cleanup_socket;
        reflexivity).
  assert (Hcalls1 : connect_calls w1 = S (connect_calls w))
    by (unfold w1, timeout_callback; rewrite connect_connect_calls;
        reflexivity).
  assert (Hlen1 : length (heap (cleanup w1)) = S (length (heap w)))
    by (rewrite cleanup_length, Hheap1, length_app; simpl; lia).
  assert (Hnew : heap (cleanup w1) !! length (heap w)
                 = Some {| readyState := CONNECTING;
                           closure_count := timer_count t; sent := [] |}).
  { rewrite cleanup_lookup_new.
    - rewrite Hheap1; apply list_lookup_middle; reflexivity.
    - intros c Hc; rewrite Hclean1 in Hc; apply I2 in Hc; lia. }
  exists (render w1); split; [unfold step; simpl; rewrite Ht; reflexivity|].
  rewrite (render_effect w1 Hm1) by (rewrite Hcount1, Hmemo1; lia).
  cbv zeta; simpl.
  rewrite connect_heap, Hok, connect_connect_calls, cleanup_connect_calls,
    connect_socket, Hok, Hcount1, Hsock1, Hcalls1.
  split; [rewrite length_app, Hlen1; simpl; lia|].
  split; [lia|].
  split; [rewrite lookup_app_l by (rewrite Hlen1; lia); exact Hnew|].
  split; [apply list_lookup_middle; symmetry; exact Hlen1|].
  split; [rewrite Hlen1; reflexivity | reflexivity].
Qed.

(** X7.  An open after a retry builds one more socket.  On a mounted instance
    whose [reconnectCount] is not 0, the reset of [reconnectCount] by
    [onopen] rebuilds [connect], so the effect runs again: a new socket is
    constructed and stored, and in the resulting state [isConnected] is true
    while the stored socket is still connecting.  When [reconnectCount] is
    already 0 the open builds nothing and the stored socket stays. *)
Theorem open_after_retry_rebuilds (w : Instance) (ws : nat) (s : WebSocket) :
  reachable w ->
  mounted w = true ->
  heap w !! ws = Some s ->
  readyState s = CONNECTING ->
  exists w',
    step (EvOpen ws) w = Some w'
    /\ isConnected (hook w') = true
    /\ reconnectCount (hook w') = 0
    /\ (reconnectCount (hook w) = 0 ->
        length (heap w') = length (heap w)
        /\ socket (hook w') = socket (hook w))
    /\ (reconnectCount (hook w) <> 0 ->
        length (heap w') = S (length (heap w))
        /\ socket (hook w') = Some (length (heap w))
        /\ stored_readyState w' = Some CONNECTING).
Proof.
  intros Hreach Hm Hs Hr.
  destruct (reachable_in_order w Hreach) as (_ & _ & I3).
  pose proof (reachable_memo w Hreach Hm) as Hmemo.
  assert (Hok : WebSocket_throws P url protocols = None).
  { destruct (WebSocket_throws P url protocols) as [exn|] eqn:Hthrow;
      [|reflexivity].
    assert (Hsome : is_Some (Some exn)) by eauto.
    destruct (I3 Hsome) as [Hnil _]; rewrite Hnil in Hs; discriminate. }
  set (w1 := onopen ws (set_readyState ws OPEN w)).
  pose proof (same_shape_trans _ _ _ (same_shape_set_readyState ws OPEN w)
                (same_shape_onopen ws _))
    as (Hlen1 & Hsock1 & _ & Hm1 & Hmemo1).
  fold w1 in Hlen1, Hsock1, Hm1, Hmemo1.
  assert (Hhook1 : hook w1
                   = {| socket := socket (hook w); data := data (hook w);
                        isConnected := true; error := None;
                        reconnectCount := 0 |})
    by (unfold w1; rewrite onopen_hook; reflexivity).
  rewrite Hm in Hm1.
  exists (render w1).
  split; [unfold step; simpl; rewrite Hs, Hr; reflexivity|].
  split; [rewrite render_isConnected, Hhook1; reflexivity|].
  split; [rewrite render_reconnectCount, Hhook1; reflexivity|].
  split.
  - intros Hzero.
    assert (Hsame : render w1 = w1).
    { unfold render; rewrite Hm1.
      case_decide as Hdiff; [reflexivity|].
      exfalso; apply Hdiff.
      rewrite Hhook1, Hmemo1, <- Hmemo, Hzero; reflexivity. }
    rewrite Hsame; split; [exact Hlen1 | exact Hsock1].
  - intros Hnz.
    rewrite (render_effect w1 Hm1)
      by (rewrite Hhook1, Hmemo1, <- Hmemo; simpl; congruence).
    assert (Hlc : length (heap (cleanup w1)) = length (heap w))
      by (rewrite cleanup_length; exact Hlen1).
    cbv zeta; unfold stored_readyState, readyState_of; simpl.
    rewrite connect_heap, connect_socket, Hok, Hlc.
    split; [rewrite length_app, Hlc; simpl; lia|].
    split; [reflexivity|].
    rewrite list_lookup_middle by (symmetry; exact Hlc).
    reflexivity.
Qed.

(** *** The pending timers *)





(** *** The order of the frames on a socket *)

Lemma frames_ok_closing (r : ReadyState) (frames : list string) :
  frames_ok r frames -> frames_ok CLOSING frames.
Proof. destruct r; simpl; auto. Qed.

Lemma frames_in_order_heap (w w' : Instance) :
  heap w' = heap w -> frames_in_order w -> frames_in_order w'.
Proof. unfold frames_in_order; intros ->; auto. Qed.

Lemma frames_in_order_alter (f : WebSocket -> WebSocket) (ws : nat)
    (w : Instance) :
  (forall s, frames_ok (readyState s) (sent s) ->
             frames_ok (readyState (f s)) (sent (f s))) ->
  frames_in_order w ->
  frames_in_order (with_heap (alter f ws) w).
Proof.
  intros Hf Hw j s'; simpl.
  destruct (decide (ws = j)) as [->|Hne].
  - rewrite list_lookup_alter_eq.
    destruct (heap w !! j) as [s|] eqn:Hs; simpl; [|discriminate].
    intros [= <-]; apply Hf, (Hw j); exact Hs.
  - rewrite list_lookup_alter_ne by assumption; apply Hw.
Qed.

Lemma frames_in_order_snoc (w w' : Instance) (x : WebSocket) :
  heap w' = heap w ++ [x] ->
  frames_ok (readyState x) (sent x) ->
  frames_in_order w -> frames_in_order w'.
Proof.
  intros Hh Hx Hw j s'; rewrite Hh, lookup_snoc_Some.
  intros [[_ Hs] | [_ <-]]; [apply (Hw j); exact Hs | exact Hx].
Qed.

Lemma ws_send_in_order (ws : nat) (frame : string) (w : Instance) :
  frames_in_order w -> frames_in_order (ws_send ws frame w).
Proof.
  apply frames_in_order_alter; intros s.
  destruct (readyState s) eqn:Hr; simpl; rewrite ?Hr; auto.
  intros Hpre; apply prefix_app_r; exact Hpre.
Qed.

Lemma cleanup_in_order (w : Instance) :
  frames_in_order w -> frames_in_order (cleanup w).
Proof.
  unfold cleanup; destruct (cleanup_socket w) as [c|]; [|auto].
  apply frames_in_order_alter; intros s.
  destruct (readyState s) eqn:Hr; simpl; rewrite ?Hr; auto.
Qed.

Lemma set_closed_in_order (ws : nat) (w : Instance) :
  frames_in_order w -> frames_in_order (set_readyState ws CLOSED w).
Proof.
  apply frames_in_order_alter; intros s; simpl.
  destruct (readyState s); simpl; auto.
Qed.

Lemma connect_frames_in_order (k : nat) (w : Instance) :
  frames_in_order w -> frames_in_order (connect k w).
Proof.
  intros Hw; pose proof (connect_heap k w) as Hh.
  destruct (WebSocket_throws P url protocols).
  - apply (frames_in_order_heap w); assumption.
  - eapply frames_in_order_snoc; [exact Hh|reflexivity|exact Hw].
Qed.

Lemma render_frames_in_order (w : Instance) :
  frames_in_order w -> frames_in_order (render w).
Proof.
  intros Hw; unfold render; destruct (mounted w); [|exact Hw].
  case_decide; [exact Hw|].
  apply (frames_in_order_heap
           (connect (reconnectCount (hook w)) (cleanup w)));
    [reflexivity|].
  apply connect_frames_in_order, cleanup_in_order; exact Hw.
Qed.

Lemma readyState_of_set_other (w : Instance) (ws ws' : nat) (r : ReadyState) :
  ws <> ws' -> readyState_of (set_readyState ws r w) ws' = readyState_of w ws'.
Proof.
  intros Hne; unfold readyState_of, set_readyState, with_heap; simpl.
  rewrite list_lookup_alter_ne by assumption; reflexivity.
Qed.

Lemma open_in_order (ws : nat) (s : WebSocket) (w : Instance) :
  heap w !! ws = Some s ->
  readyState s = CONNECTING ->
  frames_in_order w ->
  frames_in_order (onopen ws (set_readyState ws OPEN w)).
Proof.
  intros Hs Hr Hw j s' Hs'.
  set (w1 := onopen ws (set_readyState ws OPEN w)) in *.
  assert (Hready : readyState_of w1 j = Some (readyState s'))
    by (unfold readyState_of; rewrite Hs'; reflexivity).
  assert (Hsent : sent_of w1 j = sent s')
    by (unfold sent_of; rewrite Hs'; reflexivity).
  unfold w1 in Hready, Hsent; rewrite onopen_readyState in Hready.
  destruct (decide (ws = j)) as [<-|Hne].
  - rewrite readyState_of_set in Hready by eauto.
    injection Hready as <-.
    rewrite onopen_sent in Hsent by (apply readyState_of_set; eauto).
    rewrite sent_of_set in Hsent; unfold sent_of in Hsent.
    rewrite Hs in Hsent; simpl in Hsent.
    pose proof (Hw ws s Hs) as Hok; rewrite Hr in Hok; simpl in Hok.
    rewrite Hok in Hsent; simpl in Hsent.
    simpl; rewrite <- Hsent; unfold control_frames; reflexivity.
  - rewrite readyState_of_set_other in Hready by assumption.
    rewrite onopen_sent_other, sent_of_set in Hsent by assumption.
    unfold readyState_of, sent_of in Hready, Hsent.
    destruct (heap w !! j) as [s0|] eqn:Hs0; [|discriminate].
    simpl in Hready, Hsent; injection Hready as Hready.
    rewrite <- Hready, <- Hsent; apply (Hw j); exact Hs0.
Qed.

Lemma dispatch_frames_in_order (e : Event) (w w1 : Instance) :
  frames_in_order w -> dispatch e w = Some w1 -> frames_in_order w1.
Proof.
  intros Hw Hd; apply dispatch_inv in Hd.
  destruct e as [ws|ws raw|ws|ws|i|message|].
  - destruct Hd as (s & Hs & Hr & ->); eapply open_in_order; eassumption.
  - destruct Hd as (s & _ & _ & ->).
    apply (frames_in_order_heap w); [|exact Hw].
    unfold onmessage; destruct (JSON_parse P raw); reflexivity.
  - destruct Hd as (s & _ & _ & ->).
    apply (frames_in_order_heap (set_readyState ws CLOSED w));
      [|apply set_closed_in_order; exact Hw].
    unfold onclose.
    destruct (reconnect && (Z.of_nat (closure_count s) <? reconnectAttempts)%Z);
      reflexivity.
  - destruct Hd as (s & _ & _ & ->).
    apply (frames_in_order_heap (set_readyState ws CLOSED w));
      [|apply set_closed_in_order; exact Hw].
    unfold onclose.
    destruct (reconnect && (Z.of_nat (closure_count s) <? reconnectAttempts)%Z);
      reflexivity.
  - destruct Hd as (t & _ & ->); unfold timeout_callback.
    apply connect_frames_in_order.
    apply (frames_in_order_heap w); [reflexivity | exact Hw].
  - destruct Hd as (_ & ->); unfold sendMessage.
    destruct (socket (hook w)) as [ws|]; [|exact Hw].
    destruct (readyState_of w ws) as [[]|]; try exact Hw.
    apply ws_send_in_order; exact Hw.
  - destruct Hd as (_ & ->).
    apply (frames_in_order_heap (cleanup w)); [reflexivity|].
    apply cleanup_in_order; exact Hw.
Qed.

(** X8.  On every socket of the instance the control frames come first.  A
    socket that is still connecting has transmitted nothing; one that is
    open has transmitted the auth envelope and the subscribe message (each
    if its test of [onopen] passes, in that order) before any frame of
    [sendMessage]; and whatever a socket has transmitted starts with
    them. *)
Theorem control_frames_come_first (w : Instance) (ws : nat) (s : WebSocket) :
  reachable w ->
  heap w !! ws = Some s ->
  (readyState s = CONNECTING -> sent s = [])
  /\ (readyState s = OPEN -> control_frames `prefix_of` sent s)
  /\ (sent s = [] \/ control_frames `prefix_of` sent s).
Proof.
  intros Hreach Hs.
  assert (Hall : frames_in_order w).
  { revert w Hreach Hs; intros w Hreach _; revert w Hreach.
    apply (reachable_ind frames_in_order).
    - unfold mount; apply connect_frames_in_order.
      intros j s'; simpl; rewrite lookup_nil; discriminate.
    - intros e w w' Hw Hstep.
      destruct (step_inv e w w' Hstep) as (w1 & Hd & ->).
      apply render_frames_in_order, (dispatch_frames_in_order e w);
        assumption. }
  pose proof (Hall ws s Hs) as Hok.
  destruct (readyState s); simpl in Hok;
    (split; [|split]); try discriminate; auto.
Qed.

(** *** What the page shows while connecting *)

Lemma render_error_clear (w : Instance) :
  error (hook (render w)) = None -> error (hook w) = None.
Proof.
  intros Hnone; destruct (error (hook w)) as [text|] eqn:Herr; [|reflexivity].
  destruct (render_error_set w) as [text' Ht]; [rewrite Herr; eauto|].
  congruence.
Qed.

Lemma connect_error_clear (k : nat) (w : Instance) :
  error (hook (connect k w)) = None -> error (hook w) = None.
Proof.
  intros Hnone; destruct (error (hook w)) as [text|] eqn:Herr; [|reflexivity].
  destruct (connect_error_set k w) as [text' Ht]; [rewrite Herr; eauto|].
  congruence.
Qed.

Lemma first_attempt_inv (w : Instance) :
  reachable w ->
  error (hook w) = None ->
  isConnected (hook w) = false ->
  first_attempt w.
Proof.
  revert w.
  apply (reachable_ind
           (fun w => error (hook w) = None ->
                     isConnected (hook w) = false -> first_attempt w)).
  - unfold mount, connect, first_attempt.
    destruct (WebSocket_throws P url protocols); simpl; [discriminate|].
    intros _ _; repeat split.
    intros [|ws] s; simpl; [intros [= <-]; reflexivity|discriminate].
  - intros e w w' IH Hstep Herr Hconn.
    destruct (step_inv e w w' Hstep) as (w1 & Hd & ->).
    apply render_error_clear in Herr.
    rewrite render_isConnected in Hconn.
    apply dispatch_inv in Hd.
    destruct e as [ws|ws raw|ws|ws|i|message|].
    + destruct Hd as (s & _ & _ & ->).
      rewrite onopen_hook in Hconn; discriminate.
    + destruct Hd as (s & Hs & Hr & ->); exfalso.
      unfold onmessage in Herr, Hconn.
      destruct (JSON_parse P raw); [|discriminate].
      destruct (IH Herr Hconn) as (_ & _ & _ & _ & _ & _ & Hall).
      rewrite (Hall ws s Hs) in Hr; discriminate.
    + destruct Hd as (s & _ & _ & ->).
      rewrite onclose_error in Herr; discriminate.
    + destruct Hd as (s & _ & _ & ->).
      rewrite onclose_error in Herr; discriminate.
    + destruct Hd as (t & Ht & ->); exfalso.
      unfold timeout_callback in Herr, Hconn.
      apply connect_error_clear in Herr.
      rewrite connect_isConnected in Hconn.
      destruct (IH Herr Hconn) as (_ & Hnil & _).
      rewrite Hnil in Ht; discriminate.
    + destruct Hd as (_ & ->); exfalso.
      destruct (decide (stored_readyState w = Some OPEN)) as [Hopen|Hno].
      * rewrite (sendMessage_hook_open message w Hopen) in Herr, Hconn.
        destruct (IH Herr Hconn) as (_ & _ & _ & _ & _ & _ & Hall).
        unfold stored_readyState, readyState_of in Hopen.
        destruct (socket (hook w)) as [ws|]; [|discriminate].
        destruct (heap w !! ws) as [s|] eqn:Hs; [|discriminate].
        simpl in Hopen; rewrite (Hall ws s Hs) in Hopen; discriminate.
      * rewrite (sendMessage_not_open message w Hno) in Herr; discriminate.
    + destruct Hd as (Hm & ->).
      assert (Hhook : hook (unmount w) = hook w)
        by (unfold unmount; simpl; apply cleanup_hook).
      rewrite Hhook in Herr, Hconn.
      destruct (IH Herr Hconn) as (H1 & H2 & H3 & H4 & H5 & H6 & H7).
      assert (Hsame : cleanup w = w) by (unfold cleanup; rewrite H5; reflexivity).
      rewrite render_unmounted by reflexivity.
      unfold first_attempt, unmount; rewrite Hsame; simpl.
      repeat split; assumption.
Qed.

(** X10.  The page shows its connection badge in the not-connected variant
    only during the first connection attempt.  In every reachable instance
    for which [Display] returns the page with that badge, the one socket
    built by the mount is still connecting: nothing has been decoded, no
    timer is pending, [reconnectCount] is 0 and [connect] has been called
    once. *)
Theorem connecting_badge_only_on_first_attempt (w : Instance) (page : Page) :
  reachable w ->
  Display (exposed w) = Container page ->
  badge_live page = false ->
  data (hook w) = VNull
  /\ timers w = []
  /\ reconnectCount (hook w) = 0
  /\ connect_calls w = 1
  /\ forall ws s, heap w !! ws = Some s -> readyState s = CONNECTING.
Proof.
  intros Hreach Hpage Hbadge.
  assert (Herr : error (hook w) = None).
  { destruct (error (hook w)) as [text|] eqn:Herr; [|reflexivity].
    unfold Display, exposed in Hpage; simpl in Hpage; rewrite Herr in Hpage.
    rewrite (reachable_error_truthy w Hreach text Herr) in Hpage.
    discriminate. }
  assert (Hconn : isConnected (hook w) = false).
  { unfold Display, exposed in Hpage; simpl in Hpage; rewrite Herr in Hpage.
    unfold Display_page in Hpage; simpl in Hpage.
    injection Hpage as <-; exact Hbadge. }
  destruct (first_attempt_inv w Hreach Herr Hconn)
    as (H1 & H2 & H3 & _ & _ & H6 & H7).
  repeat split; assumption.
Qed.

End useWebSocket.

(** ** Properties of the preset hooks *)

(** With a truthy subscribe message and no [apiKey], the open of a socket
    transmits the serialised subscribe message and nothing else. *)
Lemma open_subscribe_only (P : Platform) (url : string)
    (config : WebSocketConfig) (w : Instance) (ws : nat) (s : WebSocket) :
  cfg_apiKey config = None ->
  truthy (cfg_subscribeMessage config) = true ->
  heap w !! ws = Some s ->
  readyState s = CONNECTING ->
  exists w',
    dispatch P url config (EvOpen ws) w = Some w'
    /\ sent_of w' ws
       = sent s ++ [JSON_stringify P (cfg_subscribeMessage config)].
Proof.
  intros Hkey Hsub Hs Hr.
  exists (onopen P config ws (set_readyState ws OPEN w)).
  split; [simpl; rewrite Hs, Hr; reflexivity|].
  rewrite onopen_sent by (apply readyState_of_set; eauto).
  rewrite sent_of_set; unfold sent_of; rewrite Hs; simpl.
  unfold apiKey, subscribeMessage; rewrite Hkey, Hsub; reflexivity.
Qed.

(** X12.  The exchange presets.  Whatever symbol, pairs or products are passed,
    the empty string and the empty list included, a socket of the Binance,
    Kraken or Coinbase preset that opens transmits exactly one frame, the
    serialised subscribe message of the preset, and no auth envelope; the
    presets set nothing else, so reconnection runs on the defaults: on, 5
    attempts, 5000 ms. *)
Theorem exchange_presets_subscribe_on_open (P : Platform)
    (preset : string * WebSocketConfig) (symbol : option string)
    (pairs products : option (list string))
    (w : Instance) (ws : nat) (s : WebSocket) :
  preset = useBinanceWebSocket symbol
  \/ preset = useKrakenWebSocket pairs
  \/ preset = useCoinbaseWebSocket products ->
  heap w !! ws = Some s ->
  readyState s = CONNECTING ->
  (exists w',
     dispatch P (fst preset) (snd preset) (EvOpen ws) w = Some w'
     /\ sent_of w' ws
        = sent s ++ [JSON_stringify P (cfg_subscribeMessage (snd preset))])
  /\ reconnect (snd preset) = true
  /\ reconnectAttempts (snd preset) = 5%Z
  /\ reconnectInterval (snd preset) = 5000%Z.
Proof.
  intros Hpreset Hs Hr.
  split; [|destruct Hpreset as [-> | [-> | ->]]; repeat split].
  apply open_subscribe_only; try assumption;
    destruct Hpreset as [-> | [-> | ->]]; reflexivity.
Qed.

(** X13.  The authenticated preset.  A socket of
    [useAuthenticatedWebSocket] that opens transmits the auth envelope with the given key, unless the key is
    the empty string, and never a subscribe message.  Its close handlers
    retry while their [reconnectCount] is below 3, after 3000 ms times 2 to
    that count, and schedule nothing from 3 on. *)
Theorem authenticated_preset_handlers (P : Platform) (url key : string)
    (w : Instance) (ws : nat) (s : WebSocket) (k : nat) :
  heap w !! ws = Some s ->
  readyState s = CONNECTING ->
  fst (useAuthenticatedWebSocket url key) = url
  /\ (exists w',
        dispatch P url (snd (useAuthenticatedWebSocket url key)) (EvOpen ws) w
        = Some w'
        /\ sent_of w' ws
           = sent s
             ++ (if truthy_string key
                 then [JSON_stringify P (auth_envelope key)]
                 else []))
  /\ timers (onclose (snd (useAuthenticatedWebSocket url key)) k w)
     = (if (k <? 3)%nat
        then timers w ++ [{| delay := (3000 * 2 ^ Z.of_nat k)%Z;
                             timer_count := k |}]
        else timers w).
Proof.
  intros Hs Hr.
  split; [reflexivity|]; split.
  - exists (onopen P (snd (useAuthenticatedWebSocket url key)) ws
              (set_readyState ws OPEN w)).
    split; [simpl; rewrite Hs, Hr; reflexivity|].
    rewrite onopen_sent by (apply readyState_of_set; eauto).
    rewrite sent_of_set; unfold sent_of; rewrite Hs; simpl.
    destruct (truthy_string key); reflexivity.
  - rewrite onclose_timers.
    change (reconnect (snd (useAuthenticatedWebSocket url key))) with true.
    change (reconnectAttempts (snd (useAuthenticatedWebSocket url key)))
      with 3%Z.
    change (reconnectInterval (snd (useAuthenticatedWebSocket url key)))
      with 3000%Z.
    simpl andb.
    destruct (Nat.ltb_spec k 3) as [Hlt|Hge].
    + replace (Z.of_nat k <? 3)%Z with true
        by (symmetry; apply Z.ltb_lt; lia).
      reflexivity.
    + replace (Z.of_nat k <? 3)%Z with false
        by (symmetry; apply Z.ltb_ge; lia).
      reflexivity.
Qed.

(** ** The hook on the sample platform *)

(** Evaluates the run in the goal, whose result is still to be chosen, and
    hands the instance it ends in to [tac]. *)
Ltac with_run_result tac :=
  match goal with
  | |- context [run ?P ?u ?c ?es ?m = Some ?w] =>
      is_evar w;
      let r := eval vm_compute in (run P u c es m) in
      match r with
      | Some ?w0 => unify w w0; tac w0
      end
  end.

(** C1, refuted.  On the page's feed the first socket closes, which
    schedules a retry, and the page unmounts: the timer is still pending, it
    fires, and [connect] is called again and builds a socket. *)
Lemma teardown_leaves_timer_firing :
  exists w w',
    run sample_platform status_url empty_config [EvClose 0; EvUnmount]
      (mount sample_platform status_url empty_config) = Some w
    /\ mounted w = false
    /\ timers w = [{| delay := 5000; timer_count := 0 |}]
    /\ step sample_platform status_url empty_config (EvTimer 0) w = Some w'
    /\ connect_calls w' = S (connect_calls w)
    /\ length (heap w') = S (length (heap w)).
Proof.
  do 2 eexists.
  split; [vm_compute; reflexivity|].
  split; [reflexivity|].
  split; [reflexivity|].
  split; [vm_compute; reflexivity|].
  split; reflexivity.
Qed.

(** [teardown_keeps_timers] on the page's feed, unmounted while the retry of
    its first close is pending. *)
Lemma teardown_keeps_timers_witness :
  exists w w',
    run sample_platform status_url empty_config [EvClose 0]
      (mount sample_platform status_url empty_config) = Some w
    /\ timers (unmount w) = timers w
    /\ timers w = [{| delay := 5000; timer_count := 0 |}]
    /\ step sample_platform status_url empty_config (EvTimer 0) (unmount w)
       = Some w'
    /\ connect_calls w' = S (connect_calls w).
Proof.
  eexists.
  with_run_result ltac:(fun w0 =>
    destruct (teardown_keeps_timers sample_platform status_url empty_config
                w0 0 {| delay := 5000; timer_count := 0 |} eq_refl)
      as (_ & Htimers & _ & _ & w' & Hstep & Hcalls & _);
    exists w').
  split; [vm_compute; reflexivity|].
  split; [exact Htimers|].
  split; [reflexivity|].
  split; [exact Hstep | exact Hcalls].
Defined.

(** C2, on a failing input.  With [reconnectAttempts = 1] and
    [reconnectInterval = 1000] every socket fails.  After the first retry the
    state cell [reconnectCount] is 1, yet the close of the socket that the
    timer's stale [connect] built schedules a retry again, at the base delay;
    three timers fire although one retry is allowed. *)
Theorem stale_closure_retries_past_limit :
  reconnectAttempts one_retry_config = 1%Z
  /\ (exists w,
        run sample_platform status_url one_retry_config
          [EvClose 0; EvTimer 0; EvClose 1]
          (mount sample_platform status_url one_retry_config) = Some w
        /\ reconnectCount (hook w) = 1
        /\ timers w = [{| delay := 1000; timer_count := 0 |}])
  /\ (exists w,
        run sample_platform status_url one_retry_config
          [EvClose 0; EvTimer 0; EvClose 1; EvClose 2; EvTimer 0; EvClose 3;
           EvTimer 0]
          (mount sample_platform status_url one_retry_config) = Some w
        /\ reconnectCount (hook w) = 3
        /\ connect_calls w = 7)
  /\ timer_fires
       [EvClose 0; EvTimer 0; EvClose 1; EvClose 2; EvTimer 0; EvClose 3;
        EvTimer 0] = 3.
Proof.
  split; [reflexivity|].
  split; [eexists; split; [vm_compute; reflexivity|]; split; reflexivity|].
  split; [eexists; split; [vm_compute; reflexivity|]; split; reflexivity|].
  reflexivity.
Qed.

(** C3, refuted.  An [apiKey] that is the empty string is configured and no
    auth envelope is sent; a [subscribeMessage] that is 0 is configured and
    it is not sent. *)
Lemma open_with_falsy_settings_sends_nothing :
  (cfg_apiKey empty_key_config = Some ""
   /\ exists w',
        dispatch sample_platform status_url empty_key_config (EvOpen 0)
          (mount sample_platform status_url empty_key_config) = Some w'
        /\ readyState_of w' 0 = Some OPEN
        /\ sent_of w' 0 = [])
  /\ (cfg_subscribeMessage zero_subscribe_config = VNum 0
      /\ exists w',
           dispatch sample_platform status_url zero_subscribe_config (EvOpen 0)
             (mount sample_platform status_url zero_subscribe_config) = Some w'
           /\ readyState_of w' 0 = Some OPEN
           /\ sent_of w' 0 = []).
Proof.
  split; (split; [reflexivity|]);
    (eexists; split; [vm_compute; reflexivity|]; split; reflexivity).
Qed.

(** [open_event_effect] with an [apiKey] and a [subscribeMessage], on the
    socket stored after one retry, when [reconnectCount] is 1. *)
Lemma open_event_effect_witness :
  exists w w',
    run sample_platform status_url auth_subscribe_config [EvClose 0; EvTimer 0]
      (mount sample_platform status_url auth_subscribe_config) = Some w
    /\ reconnectCount (hook w) = 1
    /\ dispatch sample_platform status_url auth_subscribe_config (EvOpen 2) w
       = Some w'
    /\ readyState_of w' 2 = Some OPEN
    /\ isConnected (hook w') = true
    /\ error (hook w') = None
    /\ reconnectCount (hook w') = 0
    /\ sent_of w' 2
       = [sample_stringify (auth_envelope "k1");
          sample_stringify (VObj [("x", VNum 1)])].
Proof.
  eexists.
  with_run_result ltac:(fun w0 =>
    destruct (open_event_effect sample_platform status_url
                auth_subscribe_config w0 2
                {| readyState := CONNECTING; closure_count := 1; sent := [] |}
                eq_refl eq_refl)
      as (w' & Hd & Hready & Hconn & Herr & Hcount & _ & _ & _ & Hsent & _);
    exists w').
  split; [vm_compute; reflexivity|].
  split; [reflexivity|].
  split; [exact Hd|].
  split; [exact Hready|].
  split; [exact Hconn|].
  split; [exact Herr|].
  split; [exact Hcount | exact Hsent].
Defined.

(** [message_parse_failure] on the page's feed: a decoded [true], then the
    text of an unterminated object. *)
Lemma message_parse_failure_witness :
  exists w w',
    run sample_platform status_url empty_config [EvOpen 0; EvMessage 0 "true"]
      (mount sample_platform status_url empty_config) = Some w
    /\ step sample_platform status_url empty_config
         (EvMessage 0 "{not json") w = Some w'
    /\ error (hook w') = Some "Failed to parse message data"
    /\ data (hook w') = VBool true
    /\ isConnected (hook w') = true
    /\ stored_readyState w' = Some OPEN.
Proof.
  eexists.
  with_run_result ltac:(fun w0 =>
    assert (Hreach : reachable sample_platform status_url empty_config w0)
      by (exists [EvOpen 0; EvMessage 0 "true"]; vm_compute; reflexivity);
    destruct (message_parse_failure sample_platform status_url empty_config
                w0 0 {| readyState := OPEN; closure_count := 0; sent := [] |}
                "{not json" Hreach eq_refl eq_refl eq_refl)
      as (w' & Hd & Herr & Hdata & Hconn & _ & _ & _ & Hstate & _);
    exists w').
  split; [vm_compute; reflexivity|].
  split; [exact Hd|].
  split; [exact Herr|].
  split; [exact Hdata|].
  split; [exact Hconn | exact Hstate].
Defined.

(** C5, on a failing input.  After one retry two sockets are connecting.
    The stored one opens, which runs the effect again and stores a further
    socket; the open one delivers a frame.  [isConnected] is true and a
    socket is open, yet [sendMessage] transmits nothing and sets the
    not-connected error, because the stored socket is the new one.  And the
    other way round: once that new socket has opened too and the older open
    socket closes, [isConnected] is false, yet [sendMessage] transmits on
    the stored socket and sets no error of its own. *)
Theorem sendMessage_disagrees_with_isConnected :
  (exists w w',
     run sample_platform status_url empty_config
       [EvClose 0; EvTimer 0; EvOpen 2; EvMessage 2 "true"]
       (mount sample_platform status_url empty_config) = Some w
     /\ isConnected (hook w) = true
     /\ readyState_of w 2 = Some OPEN
     /\ data (hook w) = VBool true
     /\ step sample_platform status_url empty_config (EvSend (VStr "ping")) w
        = Some w'
     /\ heap w' = heap w
     /\ error (hook w') = Some "WebSocket is not connected")
  /\ (exists w w',
        run sample_platform status_url empty_config
          [EvClose 0; EvTimer 0; EvOpen 2; EvOpen 3; EvClose 2]
          (mount sample_platform status_url empty_config) = Some w
        /\ isConnected (hook w) = false
        /\ step sample_platform status_url empty_config
             (EvSend (VStr "ping")) w = Some w'
        /\ sent_of w 3 = []
        /\ sent_of w' 3 = [sample_stringify (VStr "ping")]
        /\ error (hook w') = error (hook w)).
Proof.
  split.
  - do 2 eexists.
    split; [vm_compute; reflexivity|].
    split; [reflexivity|].
    split; [reflexivity|].
    split; [reflexivity|].
    split; [vm_compute; reflexivity|].
    split; reflexivity.
  - do 2 eexists.
    split; [vm_compute; reflexivity|].
    split; [reflexivity|].
    split; [vm_compute; reflexivity|].
    split; [reflexivity|].
    split; reflexivity.
Qed.

(** C6, refuted.  With one retry allowed, the close that schedules the retry
    and the later close that finds the attempts used up leave the same
    [error]. *)
Lemma exhausted_close_same_error :
  exists w1 w2,
    run sample_platform status_url one_retry_config [EvClose 0]
      (mount sample_platform status_url one_retry_config) = Some w1
    /\ timers w1 = [{| delay := 1000; timer_count := 0 |}]
    /\ run sample_platform status_url one_retry_config
         [EvClose 0; EvTimer 0; EvClose 2]
         (mount sample_platform status_url one_retry_config) = Some w2
    /\ timers w2 = []
    /\ error (hook w1) = Some "WebSocket connection closed"
    /\ error (hook w2) = error (hook w1).
Proof.
  do 2 eexists.
  split; [vm_compute; reflexivity|].
  split; [reflexivity|].
  split; [vm_compute; reflexivity|].
  split; [reflexivity|].
  split; reflexivity.
Qed.

(** [onclose_exhausted] with one retry allowed, in a handler that holds
    [reconnectCount = 1]. *)
Lemma onclose_exhausted_witness :
  timers (onclose one_retry_config 1
            (mount sample_platform status_url one_retry_config))
  = []
  /\ error (hook (onclose one_retry_config 1
                    (mount sample_platform status_url one_retry_config)))
     = error (hook (onclose one_retry_config 0
                      (mount sample_platform status_url one_retry_config))).
Proof.
  assert (Hstop : reconnect one_retry_config = false
                  \/ (reconnectAttempts one_retry_config <= Z.of_nat 1)%Z)
    by (right; vm_compute; discriminate).
  destruct (onclose_exhausted one_retry_config 1
              (mount sample_platform status_url one_retry_config) Hstop)
    as (Htimers & _ & _ & Hsame).
  split; [exact Htimers|].
  symmetry; apply Hsame.
Defined.

(** C7, on a failing input.  The first socket fails and the retry timer
    fires, which leaves two sockets connecting, one built by the timer's
    stale [connect] and one by the effect; the one that is not stored opens.
    [isConnected] is then true while the stored socket is still
    connecting. *)
Lemma isConnected_without_open_socket :
  exists w,
    run sample_platform status_url empty_config
      [EvClose 0; EvTimer 0; EvOpen 1]
      (mount sample_platform status_url empty_config) = Some w
    /\ isConnected (hook w) = true
    /\ stored_readyState w = Some CONNECTING.
Proof.
  eexists.
  split; [vm_compute; reflexivity|].
  split; reflexivity.
Qed.

(** [connect_construction_failure] with the empty URL, which the
    constructor refuses. *)
Lemma connect_construction_failure_witness :
  error (hook (connect sample_platform "" empty_config 0 first_render))
  = Some "Failed to create WebSocket connection: SyntaxError: The URL '' is invalid."
  /\ socket (hook (connect sample_platform "" empty_config 0 first_render))
     = None
  /\ heap (connect sample_platform "" empty_config 0 first_render) = []
  /\ timers (connect sample_platform "" empty_config 0 first_render) = [].
Proof.
  destruct (connect_construction_failure sample_platform "" empty_config 0
              first_render "SyntaxError: The URL '' is invalid." eq_refl)
    as (Herr & _ & _ & Hsock & _ & Hheap & Htimers).
  split; [exact Herr|].
  split; [exact Hsock|].
  split; [exact Hheap | exact Htimers].
Defined.

(** [sendMessage_ignores_isConnected] where [isConnected] is true and the
    stored socket is still connecting. *)
Lemma sendMessage_ignores_isConnected_witness :
  exists w,
    run sample_platform status_url empty_config
      [EvClose 0; EvTimer 0; EvOpen 1]
      (mount sample_platform status_url empty_config) = Some w
    /\ isConnected (hook w) = true
    /\ heap (sendMessage sample_platform (VStr "ping") w) = heap w
    /\ error (hook (sendMessage sample_platform (VStr "ping") w))
       = Some "WebSocket is not connected".
Proof.
  eexists.
  with_run_result ltac:(fun w0 =>
    assert (Hstate : stored_readyState w0 <> Some OPEN)
      by (vm_compute; discriminate);
    destruct (sendMessage_ignores_isConnected sample_platform (VStr "ping") w0
                Hstate)
      as (Hheap & Herr & _)).
  split; [vm_compute; reflexivity|].
  split; [reflexivity|].
  split; [exact Hheap | exact Herr].
Defined.

(** [Display_error_alert_only] on the page's feed, connected and holding a
    decoded value when a frame fails to parse. *)
Lemma Display_error_alert_only_witness :
  exists w,
    run sample_platform status_url empty_config
      [EvOpen 0; EvMessage 0 "true"; EvMessage 0 "{not json"]
      (mount sample_platform status_url empty_config) = Some w
    /\ isConnected (hook w) = true
    /\ data (hook w) = VBool true
    /\ Display (exposed w) = Alert "Failed to parse message data"
    /\ renders_badge (Display (exposed w)) = false
    /\ renders_grid (Display (exposed w)) = false
    /\ renders_last_updated (Display (exposed w)) = false.
Proof.
  eexists.
  with_run_result ltac:(fun w0 =>
    assert (Hreach : reachable sample_platform status_url empty_config w0)
      by (exists [EvOpen 0; EvMessage 0 "true"; EvMessage 0 "{not json"];
          vm_compute; reflexivity);
    destruct (Display_error_alert_only sample_platform status_url empty_config
                w0 "Failed to parse message data" Hreach eq_refl)
      as (Halert & Hbadge & Hgrid & Hlast)).
  split; [vm_compute; reflexivity|].
  split; [reflexivity|].
  split; [reflexivity|].
  split; [exact Halert|].
  split; [exact Hbadge|].
  split; [exact Hgrid | exact Hlast].
Defined.

(** ** Further properties on the sample platform *)

(** Evaluates one more event from the instance [w0] and hands the instance
    it leads to, with the proof of the step, to [tac]. *)
Ltac with_step_result P u c e w0 tac :=
  let r := eval vm_compute in (step P u c e w0) in
  match r with
  | Some ?w1 =>
      let Hstep := fresh "Hstep" in
      assert (Hstep : step P u c e w0 = Some w1) by (vm_compute; reflexivity);
      tac w1 Hstep
  end.

(** [data_after_step]: after a retry and an open, the socket that is open is
    not the stored one, and a frame it delivers still replaces [data]. *)
Lemma data_after_step_witness :
  exists w w',
    run sample_platform status_url empty_config
      [EvClose 0; EvTimer 0; EvOpen 2]
      (mount sample_platform status_url empty_config) = Some w
    /\ socket (hook w) = Some 3
    /\ step sample_platform status_url empty_config (EvMessage 2 "true") w
       = Some w'
    /\ data (hook w') = VBool true.
Proof.
  eexists.
  with_run_result ltac:(fun w0 =>
    with_step_result sample_platform status_url empty_config
      (EvMessage 2 "true") w0
      ltac:(fun w1 Hstep =>
        pose proof (data_after_step sample_platform status_url empty_config
                      (EvMessage 2 "true") w0 w1 Hstep) as Hdata;
        exists w1;
        split; [vm_compute; reflexivity|];
        split; [reflexivity|];
        split; [exact Hstep | exact Hdata])).
Defined.

(** [reconnectCount_after_step]: the first timer takes the count to 1. *)
Lemma reconnectCount_after_step_witness :
  exists w w',
    run sample_platform status_url empty_config [EvClose 0]
      (mount sample_platform status_url empty_config) = Some w
    /\ reconnectCount (hook w) = 0
    /\ step sample_platform status_url empty_config (EvTimer 0) w = Some w'
    /\ reconnectCount (hook w') = 1.
Proof.
  eexists.
  with_run_result ltac:(fun w0 =>
    with_step_result sample_platform status_url empty_config (EvTimer 0) w0
      ltac:(fun w1 Hstep =>
        pose proof (reconnectCount_after_step sample_platform status_url
                      empty_config (EvTimer 0) w0 w1 Hstep) as Hcount;
        exists w1;
        split; [vm_compute; reflexivity|];
        split; [reflexivity|];
        split; [exact Hstep | exact Hcount])).
Defined.

(** [error_stays_until_open]: after a frame that failed to parse, a frame
    that parses replaces [data] and the page still shows the alert. *)
Lemma error_stays_until_open_witness :
  exists w w',
    run sample_platform status_url empty_config
      [EvOpen 0; EvMessage 0 "{not json"]
      (mount sample_platform status_url empty_config) = Some w
    /\ step sample_platform status_url empty_config (EvMessage 0 "true") w
       = Some w'
    /\ data (hook w') = VBool true
    /\ Display (exposed w') = Alert "Failed to parse message data".
Proof.
  eexists.
  with_run_result ltac:(fun w0 =>
    assert (Hreach : reachable sample_platform status_url empty_config w0)
      by (exists [EvOpen 0; EvMessage 0 "{not json"]; vm_compute; reflexivity);
    assert (Herr : is_Some (error (hook w0))) by (simpl; eauto);
    assert (Hno : forall ws, EvMessage 0 "true" <> EvOpen ws)
      by (intros ws; discriminate);
    with_step_result sample_platform status_url empty_config
      (EvMessage 0 "true") w0
      ltac:(fun w1 Hstep =>
        destruct (error_stays_until_open sample_platform status_url
                    empty_config (EvMessage 0 "true") w0 w1 Hreach Herr Hstep
                    Hno)
          as (text & Htext & Halert);
        simpl in Htext; injection Htext as <-;
        exists w1;
        split; [vm_compute; reflexivity|];
        split; [exact Hstep|];
        split; [reflexivity | exact Halert])).
Defined.

(** [stored_socket_is_latest]: after one retry three sockets exist and the
    third is stored. *)
Lemma stored_socket_is_latest_witness :
  exists w n,
    run sample_platform status_url empty_config [EvClose 0; EvTimer 0]
      (mount sample_platform status_url empty_config) = Some w
    /\ length (heap w) = S n
    /\ socket (hook w) = Some n
    /\ n = 2.
Proof.
  eexists.
  with_run_result ltac:(fun w0 =>
    assert (Hreach : reachable sample_platform status_url empty_config w0)
      by (exists [EvClose 0; EvTimer 0]; vm_compute; reflexivity);
    destruct (stored_socket_is_latest sample_platform status_url empty_config
                w0 Hreach)
      as (n & Hlen & Hsock);
    exists n;
    split; [vm_compute; reflexivity|];
    split; [exact Hlen|];
    split; [exact Hsock|];
    simpl in Hlen; injection Hlen as <-; reflexivity).
Defined.

(** [teardown_spares_stored_socket]: the page unmounts while its socket is
    open, and the socket stays open. *)
Lemma teardown_spares_stored_socket_witness :
  exists w,
    run sample_platform status_url empty_config [EvOpen 0]
      (mount sample_platform status_url empty_config) = Some w
    /\ stored_readyState w = Some OPEN
    /\ stored_readyState (unmount w) = Some OPEN.
Proof.
  eexists.
  with_run_result ltac:(fun w0 =>
    assert (Hreach : reachable sample_platform status_url empty_config w0)
      by (exists [EvOpen 0]; vm_compute; reflexivity);
    destruct (teardown_spares_stored_socket sample_platform status_url
                empty_config w0 0 Hreach eq_refl)
      as (_ & Hstate);
    split; [vm_compute; reflexivity|];
    split; [reflexivity|];
    rewrite Hstate; reflexivity).
Defined.

(** [retry_builds_two_sockets]: the first retry of the page's feed. *)
Lemma retry_builds_two_sockets_witness :
  exists w w',
    run sample_platform status_url empty_config [EvClose 0]
      (mount sample_platform status_url empty_config) = Some w
    /\ length (heap w) = 1
    /\ step sample_platform status_url empty_config (EvTimer 0) w = Some w'
    /\ length (heap w') = 3
    /\ connect_calls w' = 3.
Proof.
  eexists.
  with_run_result ltac:(fun w0 =>
    assert (Hreach : reachable sample_platform status_url empty_config w0)
      by (exists [EvClose 0]; vm_compute; reflexivity);
    destruct (retry_builds_two_sockets sample_platform status_url empty_config
                w0 0 {| delay := 5000; timer_count := 0 |} Hreach eq_refl
                eq_refl)
      as (w' & Hstep & Hlen & Hcalls & _);
    exists w';
    split; [vm_compute; reflexivity|];
    split; [reflexivity|];
    split; [exact Hstep|];
    split; [exact Hlen | exact Hcalls]).
Defined.

(** [open_after_retry_rebuilds]: the stored socket opens after one retry,
    and another socket takes its place. *)
Lemma open_after_retry_rebuilds_witness :
  exists w w',
    run sample_platform status_url empty_config [EvClose 0; EvTimer 0]
      (mount sample_platform status_url empty_config) = Some w
    /\ socket (hook w) = Some 2
    /\ step sample_platform status_url empty_config (EvOpen 2) w = Some w'
    /\ isConnected (hook w') = true
    /\ socket (hook w') = Some 3
    /\ stored_readyState w' = Some CONNECTING.
Proof.
  eexists.
  with_run_result ltac:(fun w0 =>
    assert (Hreach : reachable sample_platform status_url empty_config w0)
      by (exists [EvClose 0; EvTimer 0]; vm_compute; reflexivity);
    assert (Hnz : reconnectCount (hook w0) <> 0) by (simpl; discriminate);
    destruct (open_after_retry_rebuilds sample_platform status_url
                empty_config w0 2
                {| readyState := CONNECTING; closure_count := 1; sent := [] |}
                Hreach eq_refl eq_refl eq_refl)
      as (w' & Hstep & Hconn & _ & _ & Hbuilt);
    destruct (Hbuilt Hnz) as (_ & Hsock & Hstate);
    exists w';
    split; [vm_compute; reflexivity|];
    split; [reflexivity|];
    split; [exact Hstep|];
    split; [exact Hconn|];
    split; [exact Hsock | exact Hstate]).
Defined.

(** [control_frames_come_first]: with an [apiKey] and a subscribe message,
    a frame of [sendMessage] follows the two control frames. *)
Lemma control_frames_come_first_witness :
  exists w s,
    run sample_platform status_url auth_subscribe_config
      [EvOpen 0; EvSend (VStr "ping")]
      (mount sample_platform status_url auth_subscribe_config) = Some w
    /\ heap w !! 0 = Some s
    /\ sent s
       = [sample_stringify (auth_envelope "k1");
          sample_stringify (VObj [("x", VNum 1)]);
          sample_stringify (VStr "ping")]
    /\ control_frames sample_platform auth_subscribe_config
         `prefix_of` sent s.
Proof.
  eexists.
  with_run_result ltac:(fun w0 =>
    assert (Hreach : reachable sample_platform status_url
                       auth_subscribe_config w0)
      by (exists [EvOpen 0; EvSend (VStr "ping")]; vm_compute; reflexivity);
    let s0 := eval vm_compute in (heap w0 !! 0) in
    match s0 with
    | Some ?s =>
        destruct (control_frames_come_first sample_platform status_url
                    auth_subscribe_config w0 0 s Hreach eq_refl)
          as (_ & Hopen & _);
        exists s;
        split; [vm_compute; reflexivity|];
        split; [reflexivity|];
        split; [reflexivity|];
        apply Hopen; reflexivity
    end).
Defined.


(** [connecting_badge_only_on_first_attempt]: the page right after the
    mount. *)
Lemma connecting_badge_only_on_first_attempt_witness :
  Display (exposed (mount sample_platform status_url empty_config))
  = Container {| badge_live := false; waiting := false;
                 grid_source := None; last_updated := None |}
  /\ timers (mount sample_platform status_url empty_config) = []
  /\ connect_calls (mount sample_platform status_url empty_config) = 1.
Proof.
  assert (Hreach : reachable sample_platform status_url empty_config
                     (mount sample_platform status_url empty_config))
    by (exists []; reflexivity).
  destruct (connecting_badge_only_on_first_attempt sample_platform status_url
              empty_config (mount sample_platform status_url empty_config)
              {| badge_live := false; waiting := false;
                 grid_source := None; last_updated := None |}
              Hreach eq_refl eq_refl)
    as (_ & Htimers & _ & Hcalls & _).
  split; [reflexivity|].
  split; [exact Htimers | exact Hcalls].
Defined.

(** [exchange_presets_subscribe_on_open]: the Binance preset with its
    default symbol. *)
Lemma exchange_presets_subscribe_on_open_witness :
  exists w',
    dispatch sample_platform (fst (useBinanceWebSocket None))
      (snd (useBinanceWebSocket None)) (EvOpen 0)
      (mount sample_platform (fst (useBinanceWebSocket None))
         (snd (useBinanceWebSocket None))) = Some w'
    /\ sent_of w' 0
       = [sample_stringify
            (VObj [("method", VStr "SUBSCRIBE");
                   ("params", VArr [VStr "btcusdt@trade"]);
                   ("id", VNum 1)])].
Proof.
  destruct (exchange_presets_subscribe_on_open sample_platform
              (useBinanceWebSocket None) None None None
              (mount sample_platform (fst (useBinanceWebSocket None))
                 (snd (useBinanceWebSocket None)))
              0 {| readyState := CONNECTING; closure_count := 0; sent := [] |}
              (or_introl eq_refl) eq_refl eq_refl)
    as ((w' & Hd & Hsent) & _).
  exists w'; split; [exact Hd | exact Hsent].
Defined.

(** [authenticated_preset_handlers]: a key that is sent on open, and a
    close handler that holds [reconnectCount = 3]. *)
Lemma authenticated_preset_handlers_witness :
  (exists w',
     dispatch sample_platform status_url
       (snd (useAuthenticatedWebSocket status_url "k1")) (EvOpen 0)
       (mount sample_platform status_url
          (snd (useAuthenticatedWebSocket status_url "k1"))) = Some w'
     /\ sent_of w' 0 = [sample_stringify (auth_envelope "k1")])
  /\ timers (onclose (snd (useAuthenticatedWebSocket status_url "k1")) 3
               (mount sample_platform status_url
                  (snd (useAuthenticatedWebSocket status_url "k1"))))
     = [].
Proof.
  destruct (authenticated_preset_handlers sample_platform status_url "k1"
              (mount sample_platform status_url
                 (snd (useAuthenticatedWebSocket status_url "k1")))
              0 {| readyState := CONNECTING; closure_count := 0; sent := [] |}
              3 eq_refl eq_refl)
    as (_ & (w' & Hd & Hsent) & Htimers).
  split; [exists w'; split; [exact Hd | exact Hsent] | exact Htimers].
Defined.

(** [no_reconnect_no_timers]: with [reconnect] off, a socket that opened
    and closed leaves no timer. *)
Lemma no_reconnect_no_timers_witness :
  exists w,
    run sample_platform status_url no_retry_config [EvOpen 0; EvClose 0]
      (mount sample_platform status_url no_retry_config) = Some w
    /\ timers w = []
    /\ connect_calls w = 1.
Proof.
  eexists.
  with_run_result ltac:(fun w0 =>
    assert (Hreach : reachable sample_platform status_url no_retry_config w0)
      by (exists [EvOpen 0; EvClose 0]; vm_compute; reflexivity);
    destruct (no_reconnect_no_timers sample_platform status_url
                no_retry_config w0 eq_refl Hreach)
      as (Htimers & Hcalls & _);
    split; [vm_compute; reflexivity|];
    split; [exact Htimers | exact Hcalls]).
Defined.

(** [stale_closure_retries_unbounded]: seven timers on the page's feed,
    whose defaults allow five attempts. *)
Lemma stale_closure_retries_unbounded_witness :
  exists es w,
    run sample_platform status_url empty_config es
      (mount sample_platform status_url empty_config) = Some w
    /\ forallb failure_event es = true
    /\ timer_fires es = 7
    /\ stale_socket_live w.
Proof.
  exact (stale_closure_retries_unbounded sample_platform status_url
           empty_config eq_refl eq_refl eq_refl 7).
Defined.
